(** * The impact engine core ([engine/core.py])

    A shallow embedding of [check_data_integrity], [calculate_impact] and
    [get_bounding_boxes], followed by the properties established about them.

    Conventions of the embedding:
    - Python floats are IEEE binary64 numbers, here Rocq's primitive [float];
    - a dictionary is a [gmap], a Python list a [list], indexing is stdpp's
      lookup with the out-of-range case written out as [IndexError];
    - a failing [assert] or a [raise] is the [Raise] outcome carrying a
      structured exception value (one constructor per raise site);
    - the collaborators that live outside this module (projection constant,
      required keywords, coordinate comparison, file name generator, writer,
      layer reader, box intersection, box formatting) are section variables. *)

From Stdlib Require Import ZArith String Ascii List Bool Floats Lia.
From stdpp Require Import base option list strings pretty gmap.

Set Warnings "-inexact-float,-register-all".
Set Default Proof Using "Type".

Local Open Scope string_scope.
Local Open Scope Z_scope.
Local Open Scope list_scope.

(** ** Data shared by the functions *)

(** A geotransform: the six parameters of the affine map from pixel indices
    to coordinates. *)
Definition Geotransform : Type := float * float * float * float * float * float.

(** Python values that can reach [get_bounding_boxes] as [req_bbox]. *)
Inductive pyval : Type :=
| PyNone
| PyFloat (x : float)
| PyStr (s : string)
| PyList (items : list pyval).

(** ** [numpy.allclose] on geotransforms *)

(** Modelled from the documentation of [numpy.allclose(a, b, rtol, atol)],
    a library outside the repository: two finite entries are close when
    [absolute(a - b) <= atol + rtol * absolute(b)]; entries that are not both
    finite are close when they are equal (same infinity; a NaN never is). *)
Definition isclose (rtol atol a b : float) : bool :=
  if (is_finite a && is_finite b)%bool
  then PrimFloat.leb (abs (a - b)) (atol + rtol * abs b)%float
  else PrimFloat.eqb a b.

Definition gt_components (g : Geotransform) : list float :=
  let '(a, b, c, d, e, f) := g in [a; b; c; d; e; f].

Definition allclose (rtol atol : float) (g h : Geotransform) : bool :=
  forallb (fun p => isclose rtol atol (fst p) (snd p))
          (combine (gt_components g) (gt_components h)).

(** The default absolute tolerance of [numpy.allclose]. *)
Definition default_atol : float := 1.0e-8%float.
(** [rtol=1.0e-12], core.py:147. *)
Definition geotransform_rtol : float := 1.0e-12%float.

(** ** The model *)

Section Model.
Context {Projection : Type} `{EqDecision Projection}.
Context {Geometry : Type}.

(** *** Exceptions *)

(** One constructor per raise site of the module.  The arguments are the
    values the source interpolates into the message. *)
Inductive exn : Type :=
| MissingKeyword (layer kw : string)               (* core.py:120 *)
| EmptyKeyword (kw layer : string)                 (* core.py:125 *)
| ProjectionMismatch (layer : string) (actual expected : Projection) (* :135 *)
| GeotransformMismatch (reference actual : Geotransform)             (* :145 *)
| CoordinateMismatch (reference actual : Geometry) (* core.py:157 *)
| EmptyVectorLayer                                 (* core.py:163 *)
| RowsMismatch (layer : string) (rows : Z) (refname : string) (M : Z) (* :178 *)
| ColumnsMismatch (layer : string) (columns : Z) (refname : string) (N : Z) (* :185 *)
| IndexError                                       (* layer_files[0], :166 *)
| AttributeError (attr : string)                   (* .rows / .columns, :166-167 *)
| NullResult (impact_function : string)            (* core.py:58 *)
| NotASpatialObject (obj : string)                 (* core.py:207, 215 *)
| InvalidBoundingBox (req_bbox : pyval)            (* core.py:224 *)
| NoOverlap (msg : string)                         (* core.py:243 *)
| ExternalError (origin : string).                 (* raised by a collaborator *)

(** The error taxonomy of the specification. *)
Inductive error_class : Type :=
| ValidationError | InputError | OverlapError | ComputationError
| PersistenceError | Crash.

Inductive validation_kind : Type :=
| KMissingKeyword | KEmptyKeyword | KProjectionMismatch
| KGeotransformMismatch | KCoordinateMismatch | KEmptyVectorLayer
| KDimensionMismatch.

Definition validation_kind_of (e : exn) : option validation_kind :=
  match e with
  | MissingKeyword _ _ => Some KMissingKeyword
  | EmptyKeyword _ _ => Some KEmptyKeyword
  | ProjectionMismatch _ _ _ => Some KProjectionMismatch
  | GeotransformMismatch _ _ => Some KGeotransformMismatch
  | CoordinateMismatch _ _ => Some KCoordinateMismatch
  | EmptyVectorLayer => Some KEmptyVectorLayer
  | RowsMismatch _ _ _ _ | ColumnsMismatch _ _ _ _ => Some KDimensionMismatch
  | _ => None
  end.

Definition class_of (e : exn) : error_class :=
  match e with
  | NullResult _ => ComputationError
  | NotASpatialObject _ | InvalidBoundingBox _ => InputError
  | NoOverlap _ => OverlapError
  | ExternalError "write_to_file" => PersistenceError
  | IndexError | AttributeError _ | ExternalError _ => Crash
  | _ => ValidationError
  end.

Inductive Outcome (A : Type) : Type :=
| Return (a : A)
| Raise (e : exn).
#[global] Arguments Return {A} a.
#[global] Arguments Raise {A} e.

Definition obind {A B} (m : Outcome A) (k : A -> Outcome B) : Outcome B :=
  match m with
  | Return a => k a
  | Raise e => Raise e
  end.

Notation "'let*' x := m 'in' k" := (obind m (fun x => k))
  (at level 10, x name, m at level 100, k at level 200).
Notation "'check!' m 'in' k" := (obind m (fun _ => k))
  (at level 10, m at level 100, k at level 200).

(** [assert cond, msg] *)
Definition assert (cond : bool) (e : exn) : Outcome unit :=
  if cond then Return tt else Raise e.

(** [for x in xs: body(x)] for a body that may raise. *)
Fixpoint for_each {A} (body : A -> Outcome unit) (xs : list A) : Outcome unit :=
  match xs with
  | [] => Return tt
  | x :: xs' => check! body x in for_each body xs'
  end.

(** The same loop when the body updates local variables [S]. *)
Fixpoint for_fold {S A} (body : S -> A -> Outcome S) (s : S) (xs : list A)
  : Outcome S :=
  match xs with
  | [] => Return s
  | x :: xs' => let* s' := body s x in for_fold body s' xs'
  end.

(** *** Layers *)

(** Modelled from the spec: the classes of [storage.raster] and
    [storage.vector] are not part of this module.  A layer is either a
    raster (rows, columns, geotransform) or a vector (geometry, feature
    count); [rows] and [columns] exist on rasters only. *)
Inductive LayerData : Type :=
| RasterData (rows columns : Z) (geotransform : Geotransform)
| VectorData (geometry : Geometry) (length : Z).

Record Layer : Type := mkLayer {
  name : string;
  keywords : gmap string string;
  projection : Projection;
  bounding_box : list float;
  data : LayerData
}.

Definition is_raster (l : Layer) : bool :=
  match data l with RasterData _ _ _ => true | VectorData _ _ => false end.
Definition is_vector (l : Layer) : bool :=
  match data l with RasterData _ _ _ => false | VectorData _ _ => true end.

(** [layer.rows], [layer.columns]: attributes a vector does not have. *)
Definition get_rows (l : Layer) : Outcome Z :=
  match data l with
  | RasterData r _ _ => Return r
  | VectorData _ _ => Raise (AttributeError "rows")
  end.
Definition get_columns (l : Layer) : Outcome Z :=
  match data l with
  | RasterData _ c _ => Return c
  | VectorData _ _ => Raise (AttributeError "columns")
  end.

(** *** [check_data_integrity] (core.py:93-185) *)

(** [storage.projection.DEFAULT_PROJECTION] (WGS84) wrapped in [Projection]. *)
Variable DEFAULT_PROJECTION : Projection.
(** [utilities.REQUIRED_KEYWORDS]. *)
Variable REQUIRED_KEYWORDS : list string.
(** [numpy.allclose] with its default tolerances on two coordinate sets. *)
Variable allclose_geometry : Geometry -> Geometry -> bool.

(** The local variables the first loop carries from layer to layer. *)
Record Locals : Type := mkLocals {
  reference_projection : option Projection;
  geotransform : option Geotransform;
  coordinates : option Geometry
}.

(** core.py:109-111 *)
Definition initial_locals : Locals :=
  {| reference_projection := Some DEFAULT_PROJECTION;
     geotransform := None;
     coordinates := None |}.

(** A Python string is true when it is not empty. *)
Definition truthy (s : string) : bool :=
  match s with EmptyString => false | String _ _ => true end.

(** core.py:117-125, one iteration over [REQUIRED_KEYWORDS]. *)
Definition check_keyword (layer : Layer) (kw : string) : Outcome unit :=
  match keywords layer !! kw with
  | None => Raise (MissingKeyword (name layer) kw)
  | Some val => assert (truthy val) (EmptyKeyword kw (name layer))
  end.

(** core.py:128-135 *)
Definition check_projection (st : Locals) (layer : Layer) : Outcome Locals :=
  match reference_projection st with
  | None =>
      Return {| reference_projection := Some (projection layer);
                geotransform := geotransform st;
                coordinates := coordinates st |}
  | Some reference =>
      check! assert (bool_decide (reference = projection layer))
                    (ProjectionMismatch (name layer) (projection layer) reference)
      in Return st
  end.

(** core.py:139-147 *)
Definition check_geotransform (st : Locals) (layer : Layer) : Outcome Locals :=
  match data layer with
  | RasterData _ _ gt =>
      match geotransform st with
      | None =>
          Return {| reference_projection := reference_projection st;
                    geotransform := Some gt;
                    coordinates := coordinates st |}
      | Some reference =>
          check! assert (allclose geotransform_rtol default_atol reference gt)
                        (GeotransformMismatch reference gt)
          in Return st
      end
  | VectorData _ _ => Return st
  end.

(** core.py:151-163 *)
Definition check_coordinates (st : Locals) (layer : Layer) : Outcome Locals :=
  match data layer with
  | VectorData geom len =>
      let* st' :=
        match coordinates st with
        | None =>
            Return {| reference_projection := reference_projection st;
                      geotransform := geotransform st;
                      coordinates := Some geom |}
        | Some reference =>
            check! assert (allclose_geometry reference geom)
                          (CoordinateMismatch reference geom)
            in Return st
        end in
      check! assert (0 <? len) EmptyVectorLayer in
      Return st'
  | RasterData _ _ _ => Return st
  end.

(** The body of the loop at core.py:113-163. *)
Definition check_layer (st : Locals) (layer : Layer) : Outcome Locals :=
  check! for_each (check_keyword layer) REQUIRED_KEYWORDS in
  let* st1 := check_projection st layer in
  let* st2 := check_geotransform st1 layer in
  check_coordinates st2 layer.

(** The body of the loop at core.py:170-185. *)
Definition check_aligned (M N : Z) (refname : string) (layer : Layer)
  : Outcome unit :=
  match data layer with
  | RasterData rows columns _ =>
      check! assert (rows =? M) (RowsMismatch (name layer) rows refname M) in
      assert (columns =? N) (ColumnsMismatch (name layer) columns refname N)
  | VectorData _ _ => Return tt
  end.

(** core.py:166-185 *)
Definition check_alignment (layer_files : list Layer) : Outcome unit :=
  match layer_files !! 0%nat with
  | None => Raise IndexError
  | Some first =>
      let* M := get_rows first in
      let* N := get_columns first in
      let refname := name first in
      for_each (check_aligned M N refname) layer_files
  end.

Definition check_data_integrity (layer_files : list Layer) : Outcome unit :=
  check! for_fold check_layer initial_locals layer_files in
  check_alignment layer_files.

(** *** Effects: the world outside the module *)

(** Modelled from the spec: the layer object an impact function returns,
    reduced to what [calculate_impact] reads and writes on it. *)
Record ImpactResult : Type := mkResult {
  res_is_raster : bool;
  res_filename : option string;
  res_name : option string
}.

(** An instantiated impact function: [run], the optional attribute
    [plugin_name] and the text [str(impact_function)]. *)
Record ImpactFunction : Type := mkImpactFunction {
  run : list Layer -> option ImpactResult;
  plugin_name : option string;
  repr : string
}.

(** What the module does to its collaborators and to the result object, in
    the order it does it. *)
Inductive Event : Type :=
| Instantiated                                  (* impact_fcn() *)
| Ran                                           (* impact_function.run(layers) *)
| NameGenerated (suffix filename : string)      (* unique_filename(suffix=..) *)
| FilenameAssigned (filename : string)          (* F.filename = .. *)
| Written (filename : string) (F : ImpactResult) (* F.write_to_file(..) *)
| NameAssigned (default_name : string)          (* F.set_name(..) *)
| LayerRead (path : string)                     (* read_layer(..) *)
| Intersected (vpt : list pyval) (haz exp : list float) (* bbox_intersection(..) *)
| Logged (msg : string).                        (* logger.info(..) *)

Record World : Type := mkWorld {
  files : gmap string ImpactResult;   (* what has been written, by path *)
  issued : nat;                       (* file names handed out so far *)
  log : list Event                    (* oldest event first *)
}.

Definition Eff (A : Type) : Type := World -> Outcome A * World.

Definition eret {A} (a : A) : Eff A := fun w => (Return a, w).
Definition eraise {A} (e : exn) : Eff A := fun w => (Raise e, w).
Definition ebind {A B} (m : Eff A) (k : A -> Eff B) : Eff B :=
  fun w => match m w with
           | (Return a, w') => k a w'
           | (Raise e, w') => (Raise e, w')
           end.
Definition lift {A} (o : Outcome A) : Eff A := fun w => (o, w).
Definition emit (ev : Event) : Eff unit :=
  fun w => (Return tt,
            {| files := files w; issued := issued w; log := log w ++ [ev] |}).

Notation "'do*' x := m 'in' k" := (ebind m (fun x => k))
  (at level 10, x name, m at level 100, k at level 200).
Notation "'do!' m 'in' k" := (ebind m (fun _ => k))
  (at level 10, m at level 100, k at level 200).

(** [storage.utilities.unique_filename(suffix=..)]: the name handed out at
    the n-th request. *)
Variable unique_filename : nat -> string -> string.
(** Whether [F.write_to_file(path)] succeeds. *)
Variable write_succeeds : ImpactResult -> string -> bool.

Definition gen_unique_filename (suffix : string) : Eff string :=
  fun w =>
    let fn := unique_filename (issued w) suffix in
    (Return fn,
     {| files := files w; issued := S (issued w);
        log := log w ++ [NameGenerated suffix fn] |}).

Definition write_to_file (F : ImpactResult) (path : string) : Eff unit :=
  fun w =>
    if write_succeeds F path
    then (Return tt,
          {| files := <[path := F]> (files w); issued := issued w;
             log := log w ++ [Written path F] |})
    else (Raise (ExternalError "write_to_file"), w).

(** *** [calculate_impact] (core.py:25-90) *)

(** [s[:-n]] *)
Definition drop_last (n : nat) (s : string) : string :=
  String.substring 0 (String.length s - n) s.

(** [not F.get_name()] *)
Definition name_unset (F : ImpactResult) : bool :=
  match res_name F with
  | None => true
  | Some s => negb (truthy s)
  end.

(** core.py:74-76 *)
Definition joined_names (layers : list Layer) : string :=
  fold_left (fun default_name layer => default_name +:+ name layer +:+ " X ")
            layers "".

(** core.py:74-82 *)
Definition default_name (layers : list Layer) (impact_function : ImpactFunction)
  : string :=
  match plugin_name impact_function with
  | Some plugin => joined_names layers +:+ plugin
  | None => drop_last 2 (joined_names layers)
  end.

Definition set_filename (F : ImpactResult) (fn : string) : ImpactResult :=
  {| res_is_raster := res_is_raster F; res_filename := Some fn;
     res_name := res_name F |}.

Definition set_name (F : ImpactResult) (n : string) : ImpactResult :=
  {| res_is_raster := res_is_raster F; res_filename := res_filename F;
     res_name := Some n |}.

Definition calculate_impact (layers : list Layer) (impact_fcn : ImpactFunction)
  (comment : string) : Eff ImpactResult :=
  do! lift (check_data_integrity layers) in
  do! emit Instantiated in
  let impact_function := impact_fcn in
  do! emit Ran in
  match run impact_function layers with
  | None => eraise (NullResult (repr impact_function))
  | Some F =>
      let extension := if res_is_raster F then ".tif" else ".shp" in
      do* output_filename := gen_unique_filename extension in
      do! emit (FilenameAssigned output_filename) in
      let F := set_filename F output_filename in
      do! write_to_file F output_filename in
      if name_unset F
      then
        let n := default_name layers impact_function in
        do! emit (NameAssigned n) in
        eret (set_name F n)
      else eret F
  end.

(** *** [get_bounding_boxes] (core.py:188-260) *)

(** What a caller may pass as [haz_data] or [exp_data]: a file name, a layer
    object, or an object that is not a spatial object. *)
Inductive LayerArg : Type :=
| Filename (path : string)
| SpatialObject (layer : Layer)
| OtherObject (text : string).

(** [storage.core.read_layer] *)
Variable read_layer : string -> Outcome Layer.
(** [storage.utilities.bbox_intersection]: a box, [None], or an exception. *)
Variable bbox_intersection :
  list pyval -> list float -> list float -> Outcome (option (list float)).
(** [storage.core.bboxlist2string(bbox, decimals=..)] *)
Variable bboxlist2string : list pyval -> nat -> string.

(** core.py:202-208 and 210-216 *)
Definition resolve_layer (arg : LayerArg) : Eff Layer :=
  match arg with
  | Filename path =>
      do! emit (LayerRead path) in
      lift (read_layer path)
  | SpatialObject layer => eret layer
  | OtherObject text => eraise (NotASpatialObject text)
  end.

(** [list(x)]: the items of a sequence, the characters of a string, and
    [None] when [x] is not iterable. *)
Definition py_list (x : pyval) : option (list pyval) :=
  match x with
  | PyList items => Some items
  | PyStr s => Some (List.map (fun c => PyStr (String c EmptyString))
                              (list_ascii_of_string s))
  | PyNone | PyFloat _ => None
  end.

(** core.py:235-241 *)
Definition overlap_message (haz_bbox exp_bbox : list float) (vpt_bbox : list pyval)
  : string :=
  "Bounding boxes of hazard data ["
  +:+ bboxlist2string (List.map PyFloat haz_bbox) 3
  +:+ "], exposure data ["
  +:+ bboxlist2string (List.map PyFloat exp_bbox) 3
  +:+ "] and viewport ["
  +:+ bboxlist2string vpt_bbox 3
  +:+ "] did not overlap, so no computation was done. Please make sure you pan to where the data is and that hazard and exposure data overlaps.".

Definition get_bounding_boxes (haz_data exp_data : LayerArg) (req_bbox : pyval)
  : Eff (list float * option (list float)) :=
  do* haz_layer := resolve_layer haz_data in
  do* exp_layer := resolve_layer exp_data in
  match py_list req_bbox with
  | None => eraise (InvalidBoundingBox req_bbox)
  | Some vpt_bbox =>
      let haz_bbox := bounding_box haz_layer in
      let exp_bbox := bounding_box exp_layer in
      do! emit (Intersected vpt_bbox haz_bbox exp_bbox) in
      do* intersection_bbox := lift (bbox_intersection vpt_bbox haz_bbox exp_bbox) in
      match intersection_bbox with
      | None =>
          let msg := overlap_message haz_bbox exp_bbox vpt_bbox in
          do! emit (Logged msg) in
          eraise (NoOverlap msg)
      | Some box => eret (box, None)
      end
  end.

End Model.

Arguments Return {Projection Geometry A} a.
Arguments Raise {Projection Geometry A} e.

(** * Vocabulary of the specification *)

(** An outcome that is a validation error of the given kind. *)
Definition fails_with {Projection Geometry A}
  (o : @Outcome Projection Geometry A) (k : validation_kind) : Prop :=
  exists e, o = Raise e /\ validation_kind_of e = Some k.

(** Rows and columns of a raster layer. *)
Definition raster_dims {Projection Geometry} (l : @Layer Projection Geometry)
  : option (Z * Z) :=
  match data l with
  | RasterData rows columns _ => Some (rows, columns)
  | VectorData _ _ => None
  end.

(** All raster layers of the list have equal rows and equal columns. *)
Definition rasters_aligned {Projection Geometry}
  (ls : list (@Layer Projection Geometry)) : Prop :=
  forall a b da db, a ∈ ls -> b ∈ ls ->
    raster_dims a = Some da -> raster_dims b = Some db ->
    da.1 = db.1 /\ da.2 = db.2.

(** Two raster layers of the list differ in rows or in columns. *)
Definition rasters_misaligned {Projection Geometry}
  (ls : list (@Layer Projection Geometry)) : Prop :=
  exists a b da db, a ∈ ls /\ b ∈ ls /\
    raster_dims a = Some da /\ raster_dims b = Some db /\
    (da.1 <> db.1 \/ da.2 <> db.2).

Definition raster_geotransform {Projection Geometry}
  (l : @Layer Projection Geometry) : option Geotransform :=
  match data l with
  | RasterData _ _ g => Some g
  | VectorData _ _ => None
  end.

(** The geotransform of the first raster layer of a list. *)
Fixpoint first_raster_geotransform {Projection Geometry}
  (ls : list (@Layer Projection Geometry)) : option Geotransform :=
  match ls with
  | [] => None
  | l :: ls' =>
      match raster_geotransform l with
      | Some g => Some g
      | None => first_raster_geotransform ls'
      end
  end.

(** Some component of [h] is further from the matching component of [g]
    than [rtol] times its own magnitude. *)
Definition exceeds_rtol (rtol : float) (g h : Geotransform) : bool :=
  existsb (fun p => PrimFloat.ltb (rtol * abs (snd p))%float
                                  (abs (fst p - snd p))%float)
          (combine (gt_components g) (gt_components h)).

(** The world after some more events. *)
Definition with_events (w : World) (evs : list Event) : World :=
  {| files := files w; issued := issued w; log := log w ++ evs |}.

Definition is_written (ev : Event) : bool :=
  match ev with Written _ _ => true | _ => false end.

Definition is_name_assigned (ev : Event) : bool :=
  match ev with NameAssigned _ => true | _ => false end.

(** Every assignment of the name comes before every write. *)
Definition named_before_persisted (l : list Event) : Prop :=
  forall i j ev1 ev2,
    l !! i = Some ev1 -> l !! j = Some ev2 ->
    is_name_assigned ev1 = true -> is_written ev2 = true ->
    (i < j)%nat.

(** Every write comes before every assignment of the name. *)
Definition persisted_before_named (l : list Event) : Prop :=
  forall i j ev1 ev2,
    l !! i = Some ev1 -> l !! j = Some ev2 ->
    is_written ev1 = true -> is_name_assigned ev2 = true ->
    (i < j)%nat.

(** [needle] is a part of [hay]. *)
Definition occurs_in (needle hay : string) : Prop :=
  exists before after, hay = before +:+ needle +:+ after.

(** [req_bbox] can be read as a sequence of exactly four elements. *)
Definition coercible_to_bbox (req_bbox : pyval) : bool :=
  match py_list req_bbox with
  | Some items => (length items =? 4)%nat
  | None => false
  end.

(** ** The intersection primitive *)

(** Python's [max(a, b)] and [min(a, b)] on floats: the first argument stays
    unless the second is strictly larger (smaller). *)
Definition fmax (a b : float) : float := if PrimFloat.ltb a b then b else a.
Definition fmin (a b : float) : float := if PrimFloat.ltb b a then b else a.

Definition as_box (items : list pyval) : option (float * float * float * float) :=
  match items with
  | [PyFloat w; PyFloat s; PyFloat e; PyFloat n] => Some (w, s, e, n)
  | _ => None
  end.

(** Modelled from the spec: [storage.utilities.bbox_intersection] is not part
    of this module.  For three boxes [west, south, east, north] the
    intersection has [west = max(wests)], [south = max(souths)],
    [east = min(easts)], [north = min(norths)], and there is no overlap
    ([None]) when [west >= east] or [south >= north].  Arguments that are not
    three boxes are outside that contract; here the primitive raises. *)
Definition bbox_intersection_model {Projection Geometry}
  (vpt : list pyval) (haz exp : list float)
  : @Outcome Projection Geometry (option (list float)) :=
  match as_box vpt, haz, exp with
  | Some (w0, s0, e0, n0), [w1; s1; e1; n1], [w2; s2; e2; n2] =>
      let west := fmax (fmax w0 w1) w2 in
      let south := fmax (fmax s0 s1) s2 in
      let east := fmin (fmin e0 e1) e2 in
      let north := fmin (fmin n0 n1) n2 in
      if PrimFloat.leb east west || PrimFloat.leb north south
      then Return None
      else Return (Some [west; south; east; north])
  | _, _, _ => Raise (ExternalError "bbox_intersection")
  end.

(** Comparisons against the constants 1 and 5, read off the binary
    representation: the specification of the primitive comparisons turns each
    into a comparison of signs, exponents and mantissas. *)
Ltac float_order_cases :=
  rewrite ?ltb_spec, ?leb_spec;
  try change (Prim2SF 1) with (S754_finite false 4503599627370496 (-52));
  try change (Prim2SF 5) with (S754_finite false 5629499534213120 (-50));
  repeat match goal with
         | |- context [Prim2SF ?x] =>
             let a := fresh "a" in
             generalize (Prim2SF x); intros a;
             destruct a as [[]|[]| |[] ? ?]
         end;
  unfold SFltb, SFleb, SFcompare;
  try discriminate; try reflexivity;
  repeat match goal with
         | |- context [(?a ?= ?b)%Z] => destruct (Z.compare_spec a b)
         end;
  try discriminate; try reflexivity; try lia.

(** ** What validation asks of a layer *)

Definition vector_geometry {Projection Geometry}
  (l : @Layer Projection Geometry) : option Geometry :=
  match data l with
  | VectorData geom _ => Some geom
  | RasterData _ _ _ => None
  end.

(** [len(layer)] of a vector layer. *)
Definition vector_length {Projection Geometry}
  (l : @Layer Projection Geometry) : option Z :=
  match data l with
  | VectorData _ len => Some len
  | RasterData _ _ _ => None
  end.

(** The geometry of the first vector layer of a list. *)
Fixpoint first_vector_geometry {Projection Geometry}
  (ls : list (@Layer Projection Geometry)) : option Geometry :=
  match ls with
  | [] => None
  | l :: ls' =>
      match vector_geometry l with
      | Some c => Some c
      | None => first_vector_geometry ls'
      end
  end.

(** Every required keyword is present with a value that is not empty. *)
Definition keywords_complete {Projection Geometry}
  (required : list string) (l : @Layer Projection Geometry) : Prop :=
  forall kw, kw ∈ required ->
    exists val, keywords l !! kw = Some val /\ val <> "".

(** What the first loop asks of a layer that comes after the layers
    [before]: complete keywords, the default projection, a geotransform
    close to the one of the first raster before it, a geometry close to the
    one of the first vector before it, and at least one feature. *)
Definition layer_accepted {Projection Geometry}
  (default : Projection) (required : list string)
  (close : Geometry -> Geometry -> bool)
  (before : list (@Layer Projection Geometry)) (l : @Layer Projection Geometry)
  : Prop :=
  keywords_complete required l
  /\ projection l = default
  /\ (forall g0 g, first_raster_geotransform before = Some g0 ->
        raster_geotransform l = Some g ->
        allclose geotransform_rtol default_atol g0 g = true)
  /\ (forall c0 c, first_vector_geometry before = Some c0 ->
        vector_geometry l = Some c -> close c0 c = true)
  /\ (forall len, vector_length l = Some len -> 0 < len).

(** Every file holds a result that carries the file's own path. *)
Definition files_consistent (w : World) : Prop :=
  forall path F, files w !! path = Some F -> res_filename F = Some path.

(** * A concrete environment

    One instance of every collaborator and a few layers, used to run the
    model on definite inputs. *)

Definition WGS84 : string := "EPSG:4326".
Definition UTM48S : string := "EPSG:32748".
Definition example_keywords : list string := ["title"; "category"].

Definition points : Type := list (float * float).

(** [numpy.allclose] with [rtol=1e-05], [atol=1e-08] on two point sets of the
    same length. *)
Definition allclose_points (a b : points) : bool :=
  (length a =? length b)%nat
  && forallb (fun p => isclose 1.0e-5%float default_atol (fst (fst p)) (fst (snd p))
                       && isclose 1.0e-5%float default_atol (snd (fst p)) (snd (snd p)))
             (combine a b).

Definition example_unique_filename (n : nat) (suffix : string) : string :=
  "impact_" +:+ pretty n +:+ suffix.

Definition always_writes (F : ImpactResult) (path : string) : bool := true.

Definition nothing_on_disk (path : string) : @Outcome string points (@Layer string points) :=
  Raise (ExternalError "read_layer").

Definition empty_world : World := {| files := ∅; issued := 0; log := [] |}.

Definition example_layer_keywords (title category : string) : gmap string string :=
  <["title" := title]> (<["category" := category]> ∅).

Definition unit_grid : Geotransform :=
  (0, 1, 0, 0, 0, -1)%float.

Definition flood : @Layer string points :=
  {| name := "Flood";
     keywords := example_layer_keywords "Flood" "hazard";
     projection := WGS84;
     bounding_box := [5; 5; 6; 6]%float;
     data := RasterData 2 3 unit_grid |}.

Definition population : @Layer string points :=
  {| name := "Population";
     keywords := example_layer_keywords "Population" "exposure";
     projection := WGS84;
     bounding_box := [4; 4; 12; 12]%float;
     data := RasterData 2 3 unit_grid |}.

Definition buildings : @Layer string points :=
  {| name := "Buildings";
     keywords := example_layer_keywords "Buildings" "exposure";
     projection := WGS84;
     bounding_box := [4; 4; 12; 12]%float;
     data := VectorData [(4.5, 4.5); (5.5, 5.5)]%float 2 |}.

(** A layer in another projection that also lacks the required keywords. *)
Definition unlabelled_utm : @Layer string points :=
  {| name := "Scratch";
     keywords := ∅;
     projection := UTM48S;
     bounding_box := [5; 5; 6; 6]%float;
     data := RasterData 2 3 unit_grid |}.

(** The flood grid moved east by a billionth of a degree. *)
Definition shifted_grid : Geotransform :=
  (1.0e-9, 1, 0, 0, 0, -1)%float.

Definition shifted_flood : @Layer string points :=
  {| name := "Shifted flood";
     keywords := example_layer_keywords "Shifted flood" "hazard";
     projection := WGS84;
     bounding_box := [5; 5; 6; 6]%float;
     data := RasterData 2 3 shifted_grid |}.

(** The same area at half the resolution: fewer rows and columns, and so a
    larger pixel size in the geotransform. *)
Definition coarse_grid : Geotransform :=
  (0, 2, 0, 0, 0, -2)%float.

Definition coarse_population : @Layer string points :=
  {| name := "Coarse population";
     keywords := example_layer_keywords "Coarse population" "exposure";
     projection := WGS84;
     bounding_box := [4; 4; 12; 12]%float;
     data := RasterData 1 2 coarse_grid |}.

(** A population grid with complete keywords in another projection. *)
Definition utm_population : @Layer string points :=
  {| name := "UTM population";
     keywords := example_layer_keywords "UTM population" "exposure";
     projection := UTM48S;
     bounding_box := [4; 4; 12; 12]%float;
     data := RasterData 2 3 unit_grid |}.

Definition unset_result : ImpactResult :=
  {| res_is_raster := true; res_filename := None; res_name := None |}.

(** An impact function without [plugin_name] whose result has no name. *)
Definition unnamed_function : @ImpactFunction string points :=
  {| run := fun _ => Some unset_result;
     plugin_name := None;
     repr := "<unnamed impact function>" |}.

(** An impact function whose [run] returns [None]. *)
Definition null_function : @ImpactFunction string points :=
  {| run := fun _ => None;
     plugin_name := None;
     repr := "<null impact function>" |}.

(** A fixed-point rendering of a float, [decimals] digits after the point,
    rounding the exact binary value to nearest, ties to even. *)
Definition round_half_even (num den : Z) : Z :=
  let q := num / den in
  let r := num mod den in
  if 2 * r <? den then q
  else if den <? 2 * r then q + 1
  else if Z.even q then q else q + 1.

Definition pad_zeros (width : nat) (digits : string) : string :=
  String.concat "" (replicate (width - String.length digits) "0") +:+ digits.

Definition format_fixed (decimals : nat) (x : float) : string :=
  let scale := 10 ^ Z.of_nat decimals in
  match Prim2SF x with
  | S754_nan => "nan"
  | S754_infinity s => if s then "-inf" else "inf"
  | S754_zero s =>
      (if s then "-" else "") +:+ "0." +:+ pad_zeros decimals ""
  | S754_finite s m e =>
      let scaled :=
        if 0 <=? e then Z.pos m * 2 ^ e * scale
        else round_half_even (Z.pos m * scale) (2 ^ (- e)) in
      (if s then "-" else "")
      +:+ pretty (scaled / scale) +:+ "."
      +:+ pad_zeros decimals (pretty (scaled mod scale))
  end.

(** An instance of [bboxlist2string]: the coordinates, comma separated. *)
Definition example_bboxlist2string (bbox : list pyval) (decimals : nat) : string :=
  String.concat ","
    (List.map (fun v => match v with
                        | PyFloat x => format_fixed decimals x
                        | PyStr text => text
                        | PyNone => "None"
                        | PyList _ => "[...]"
                        end) bbox).

(** A request with three coordinates only. *)
Definition three_coordinates : pyval :=
  PyList [PyFloat 0; PyFloat 0; PyFloat 1].

(** The viewport of the no-overlap scenario. *)
Definition unit_viewport : pyval :=
  PyList [PyFloat 0; PyFloat 0; PyFloat 1; PyFloat 1].

Definition example_bounding_boxes :=
  @get_bounding_boxes string points nothing_on_disk bbox_intersection_model
                      example_bboxlist2string.

(** The result of [unnamed_function] on the flood and population layers, as
    it is written and as it is returned. *)
Definition written_result : ImpactResult :=
  {| res_is_raster := true;
     res_filename := Some "impact_0.tif";
     res_name := None |}.

Definition returned_result : ImpactResult :=
  {| res_is_raster := true;
     res_filename := Some "impact_0.tif";
     res_name := Some "Flood X Population " |}.

Definition returned_result_buildings : ImpactResult :=
  {| res_is_raster := true;
     res_filename := Some "impact_0.tif";
     res_name := Some "Flood X Buildings " |}.


(** An impact function whose result comes with a name of its own. *)
Definition named_result : ImpactResult :=
  {| res_is_raster := false; res_filename := None;
     res_name := Some "Flooded buildings" |}.

Definition named_function : @ImpactFunction string points :=
  {| run := fun _ => Some named_result;
     plugin_name := None;
     repr := "<named impact function>" |}.

(** An impact function with a [plugin_name]. *)
Definition plugin_function : @ImpactFunction string points :=
  {| run := fun _ => Some unset_result;
     plugin_name := Some "Flood impact";
     repr := "<flood impact function>" |}.

(** A population grid on the flood grid's geotransform with more rows. *)
Definition tall_population : @Layer string points :=
  {| name := "Tall population";
     keywords := example_layer_keywords "Tall population" "exposure";
     projection := WGS84;
     bounding_box := [4; 4; 12; 12]%float;
     data := RasterData 4 3 unit_grid |}.

Definition example_validate :=
  @check_data_integrity string _ points WGS84 example_keywords allclose_points.

Definition example_impact :=
  @calculate_impact string _ points WGS84 example_keywords allclose_points
                    example_unique_filename always_writes.

(** * Properties *)

Section Properties.
Context {Projection : Type} `{EqDecision Projection} {Geometry : Type}.
Variable DEFAULT_PROJECTION : Projection.
Variable REQUIRED_KEYWORDS : list string.
Variable allclose_geometry : Geometry -> Geometry -> bool.
Variable unique_filename : nat -> string -> string.
Variable write_succeeds : @ImpactResult -> string -> bool.

Local Abbreviation layer := (@Layer Projection Geometry).
Local Abbreviation outcome := (@Outcome Projection Geometry).
Local Abbreviation locals := (@Locals Projection Geometry).
Local Abbreviation world := (@World).
Local Abbreviation validate :=
  (check_data_integrity DEFAULT_PROJECTION REQUIRED_KEYWORDS allclose_geometry).
Local Abbreviation layer_body :=
  (check_layer REQUIRED_KEYWORDS allclose_geometry).
Local Abbreviation first_pass :=
  (for_fold layer_body (initial_locals DEFAULT_PROJECTION)).
Local Abbreviation impact :=
  (calculate_impact DEFAULT_PROJECTION REQUIRED_KEYWORDS allclose_geometry
                    unique_filename write_succeeds).

Variable read_layer : string -> outcome layer.
Variable bbox_intersection :
  list pyval -> list float -> list float -> outcome (option (list float)).
Variable bboxlist2string : list pyval -> nat -> string.

(** ** Outcomes and loops that may raise *)

Lemma obind_return {A B} (m : outcome A) (k : A -> outcome B) b :
  obind m k = Return b -> exists a, m = Return a /\ k a = Return b.
Proof. destruct m as [a|e]; simpl; [eauto | done]. Qed.

Lemma assert_return cond (e : @exn Projection Geometry) :
  assert cond e = Return tt -> cond = true.
Proof. unfold assert. by destruct cond. Qed.

Lemma for_fold_app {S A} (body : S -> A -> outcome S) s xs ys :
  for_fold body s (xs ++ ys)
  = obind (for_fold body s xs) (fun s' => for_fold body s' ys).
Proof.
  revert s. induction xs as [|x xs IH]; intros s; simpl; [done|].
  destruct (body s x) as [s'|e]; simpl; [apply IH | done].
Qed.

Lemma for_fold_raise {S A} (body : S -> A -> outcome S) s xs e :
  for_fold body s xs = Raise e ->
  exists l1 x l2 st,
    xs = l1 ++ x :: l2 /\ for_fold body s l1 = Return st /\ body st x = Raise e.
Proof.
  revert s. induction xs as [|x xs IH]; intros s; simpl; [done|].
  destruct (body s x) as [s'|e'] eqn:Hb; simpl.
  - intros Hr. destruct (IH _ Hr) as (l1 & y & l2 & st & -> & Hl1 & Hy).
    exists (x :: l1), y, l2, st. simpl. rewrite Hb. simpl. by repeat split.
  - intros [= ->]. exists [], x, xs, s. by repeat split.
Qed.

Lemma for_each_raise {A} (body : A -> outcome unit) xs e :
  for_each body xs = Raise e ->
  exists l1 x l2,
    xs = l1 ++ x :: l2 /\ for_each body l1 = Return tt /\ body x = Raise e.
Proof.
  induction xs as [|x xs IH]; simpl; [done|].
  destruct (body x) as [[]|e'] eqn:Hb; simpl.
  - intros Hr. destruct (IH Hr) as (l1 & y & l2 & -> & Hl1 & Hy).
    exists (x :: l1), y, l2. simpl. rewrite Hb. simpl. by repeat split.
  - intros [= ->]. exists [], x, xs. by repeat split.
Qed.

Lemma for_each_return {A} (body : A -> outcome unit) xs :
  for_each body xs = Return tt <-> Forall (fun x => body x = Return tt) xs.
Proof.
  induction xs as [|x xs IH]; simpl.
  - split; [constructor | done].
  - destruct (body x) as [[]|e] eqn:Hb; simpl.
    + rewrite IH. split; [by constructor | by inversion 1].
    + split; [done | inversion 1; congruence].
Qed.

Lemma for_each_total {A} (body : A -> outcome unit) xs :
  for_each body xs = Return tt \/ exists e, for_each body xs = Raise e.
Proof. destruct (for_each body xs) as [[]|e]; eauto. Qed.

(** ** The body of the first loop *)

(** A layer passes the loop body when its four steps pass in turn. *)
Lemma check_layer_return st (l : layer) st' :
  layer_body st l = Return st' ->
  exists st1 st2,
    for_each (check_keyword l) REQUIRED_KEYWORDS = Return tt
    /\ check_projection st l = Return st1
    /\ check_geotransform st1 l = Return st2
    /\ check_coordinates allclose_geometry st2 l = Return st'.
Proof.
  unfold check_layer. intros Hstep.
  apply obind_return in Hstep as ([] & Hkw & Hstep).
  apply obind_return in Hstep as (st1 & Hp & Hstep).
  apply obind_return in Hstep as (st2 & Hg & Hc).
  by exists st1, st2.
Qed.

(** With the reference set, the projection step passes only for a layer in
    the reference projection, and it leaves the locals alone. *)
Lemma check_projection_return st (l : layer) st' reference :
  reference_projection st = Some reference ->
  check_projection st l = Return st' ->
  st' = st /\ projection l = reference.
Proof.
  unfold check_projection. intros -> Hs.
  apply obind_return in Hs as ([] & Ha & [= <-]).
  apply assert_return, bool_decide_eq_true in Ha. done.
Qed.

Lemma check_geotransform_reference st (l : layer) st' :
  check_geotransform st l = Return st' ->
  reference_projection st' = reference_projection st.
Proof.
  unfold check_geotransform. destruct (data l) as [r c gt|geom len].
  - destruct (geotransform st).
    + intros Hs. apply obind_return in Hs as ([] & _ & [= <-]). done.
    + by intros [= <-].
  - by intros [= <-].
Qed.

Lemma check_coordinates_reference st (l : layer) st' :
  check_coordinates allclose_geometry st l = Return st' ->
  reference_projection st' = reference_projection st.
Proof.
  unfold check_coordinates. destruct (data l) as [r c gt|geom len].
  - by intros [= <-].
  - intros Hs. apply obind_return in Hs as (st1 & Hs1 & Hs).
    apply obind_return in Hs as ([] & _ & [= <-]).
    destruct (coordinates st).
    + apply obind_return in Hs1 as ([] & _ & [= <-]). done.
    + by injection Hs1 as <-.
Qed.

(** The reference projection is an invariant of the loop: it starts as the
    default and no iteration changes it. *)
Lemma check_layer_reference st l st' :
  layer_body st l = Return st' ->
  reference_projection st = Some DEFAULT_PROJECTION ->
  reference_projection st' = Some DEFAULT_PROJECTION.
Proof.
  intros Hstep Href.
  apply check_layer_return in Hstep as (st1 & st2 & _ & Hp & Hg & Hc).
  destruct (check_projection_return _ _ _ _ Href Hp) as [-> _].
  rewrite (check_coordinates_reference _ _ _ Hc).
  by rewrite (check_geotransform_reference _ _ _ Hg).
Qed.

Lemma first_pass_reference_from st ls st' :
  for_fold layer_body st ls = Return st' ->
  reference_projection st = Some DEFAULT_PROJECTION ->
  reference_projection st' = Some DEFAULT_PROJECTION.
Proof.
  revert st. induction ls as [|l ls IH]; intros st; simpl.
  - by intros [= <-].
  - destruct (layer_body st l) as [st1|?] eqn:Hstep; simpl; [|done].
    intros Hrest Href. eapply IH; [done|]. by eapply check_layer_reference.
Qed.

(** ** Empty layer lists *)

(** C10: on the empty list [check_data_integrity] does not return: after the
    (empty) first loop it reads [layer_files[0]], which raises [IndexError],
    an exception that is not one of the validation errors. *)
Theorem check_data_integrity_empty :
  check_data_integrity DEFAULT_PROJECTION REQUIRED_KEYWORDS allclose_geometry []
  = Raise IndexError
  /\ validation_kind_of (@IndexError Projection Geometry) = None
  /\ class_of (@IndexError Projection Geometry) = Crash.
Proof. by repeat split. Qed.

(** ** [calculate_impact]: failures before anything is written *)

(** C8: when validation raises, [calculate_impact] raises the same exception
    and leaves the world as it found it: the impact function is neither
    instantiated nor run, no file name is generated and nothing is written. *)
Theorem calculate_impact_propagates_validation
  (layers : list layer) impact_fcn comment (w : world) e :
  check_data_integrity DEFAULT_PROJECTION REQUIRED_KEYWORDS allclose_geometry layers
    = Raise e ->
  calculate_impact DEFAULT_PROJECTION REQUIRED_KEYWORDS allclose_geometry
                   unique_filename write_succeeds layers impact_fcn comment w
    = (Raise e, w).
Proof.
  intros Hv. unfold calculate_impact, ebind, lift. by rewrite Hv.
Qed.

(** C7: when [run] returns [None], [calculate_impact] raises the null-result
    error, a computation error.  The only events are the instantiation and
    the run: no file name is generated, the result's file name is not
    assigned, [write_to_file] is not called, and the files are unchanged. *)
Theorem calculate_impact_null_result
  (layers : list layer) impact_fcn comment (w : world) :
  check_data_integrity DEFAULT_PROJECTION REQUIRED_KEYWORDS allclose_geometry layers
    = Return tt ->
  run impact_fcn layers = None ->
  exists w',
    calculate_impact DEFAULT_PROJECTION REQUIRED_KEYWORDS allclose_geometry
                     unique_filename write_succeeds layers impact_fcn comment w
      = (Raise (NullResult (repr impact_fcn)), w')
    /\ class_of (@NullResult Projection Geometry (repr impact_fcn)) = ComputationError
    /\ files w' = files w
    /\ issued w' = issued w
    /\ log w' = log w ++ [Instantiated; Ran].
Proof.
  intros Hv Hrun. unfold calculate_impact, ebind, lift, emit, eraise.
  rewrite Hv, Hrun. simpl. eexists. split; [reflexivity|].
  simpl. rewrite <- app_assoc. by repeat split.
Qed.

(** ** Projection consistency *)

Lemma check_keyword_kind (l : layer) kw e :
  check_keyword l kw = Raise e ->
  validation_kind_of e = Some KMissingKeyword
  \/ validation_kind_of e = Some KEmptyKeyword.
Proof.
  unfold check_keyword. destruct (keywords l !! kw) as [val|].
  - unfold assert. destruct (truthy val); [done|]. intros [= <-]. by right.
  - intros [= <-]. by left.
Qed.

Lemma check_keywords_kind (l : layer) e :
  for_each (check_keyword l) REQUIRED_KEYWORDS = Raise e ->
  validation_kind_of e = Some KMissingKeyword
  \/ validation_kind_of e = Some KEmptyKeyword.
Proof.
  intros Hr. apply for_each_raise in Hr as (? & kw & ? & _ & _ & Hk).
  by eapply check_keyword_kind.
Qed.

(** The first failing check of a layer is the projection check exactly when
    its keywords are complete and its projection is not the default. *)
Lemma check_layer_projection_mismatch st (l : layer) :
  reference_projection st = Some DEFAULT_PROJECTION ->
  (exists e, layer_body st l = Raise e
             /\ validation_kind_of e = Some KProjectionMismatch)
  <-> for_each (check_keyword l) REQUIRED_KEYWORDS = Return tt
      /\ projection l <> DEFAULT_PROJECTION.
Proof.
  intros Href.
  unfold check_layer, check_projection, check_geotransform, check_coordinates.
  rewrite Href.
  destruct (for_each _ REQUIRED_KEYWORDS) as [[]|e0] eqn:Hkw; simpl.
  - unfold assert at 1.
    destruct (bool_decide (DEFAULT_PROJECTION = projection l)) eqn:Hp; simpl.
    + apply bool_decide_eq_true in Hp. split; [|intros [_ Hne]; congruence].
      intros (e & He & Hk). exfalso.
      destruct (data l) as [r c gt|geom len]; simpl in He.
      * destruct (geotransform st); simpl in He; [|done].
        unfold assert in He.
        destruct (allclose _ _ _ _); simpl in He; [done|].
        by injection He as <-.
      * destruct (coordinates st); simpl in He; unfold assert in He.
        -- destruct (allclose_geometry _ _); simpl in He;
             [|by injection He as <-].
           destruct (0 <? len); simpl in He; [done|]. by injection He as <-.
        -- destruct (0 <? len); simpl in He; [done|]. by injection He as <-.
    + apply bool_decide_eq_false in Hp. split.
      * intros _. split; [done | congruence].
      * intros _. eexists. by split.
  - split.
    + intros (e & [= <-] & Hk).
      destruct (check_keywords_kind _ _ Hkw) as [Hk'|Hk']; congruence.
    + by intros [? _].
Qed.

Lemma check_aligned_kind M N refname (l : layer) e :
  check_aligned M N refname l = Raise e ->
  validation_kind_of e = Some KDimensionMismatch.
Proof.
  unfold check_aligned, assert. destruct (data l) as [r c gt|geom len]; [|done].
  destruct (r =? M); simpl.
  - destruct (c =? N); [done|]. by intros [= <-].
  - by intros [= <-].
Qed.

Lemma check_alignment_kind (ls : list layer) e :
  check_alignment ls = Raise e ->
  validation_kind_of e = None
  \/ validation_kind_of e = Some KDimensionMismatch.
Proof.
  unfold check_alignment, get_rows, get_columns.
  destruct (ls !! 0%nat) as [first|]; [|intros [= <-]; by left].
  destruct (data first); simpl; [|intros [= <-]; by left].
  intros Hr. apply for_each_raise in Hr as (? & x & ? & _ & _ & Hx).
  right. by eapply check_aligned_kind.
Qed.

Lemma check_layer_return_projection st (l : layer) st' :
  layer_body st l = Return st' ->
  reference_projection st = Some DEFAULT_PROJECTION ->
  projection l = DEFAULT_PROJECTION.
Proof.
  intros Hstep Href.
  apply check_layer_return in Hstep as (st1 & st2 & _ & Hp & _).
  by destruct (check_projection_return _ _ _ _ Href Hp).
Qed.

Lemma first_pass_return_projection st (ls : list layer) st' :
  for_fold layer_body st ls = Return st' ->
  reference_projection st = Some DEFAULT_PROJECTION ->
  Forall (fun l => projection l = DEFAULT_PROJECTION) ls.
Proof.
  revert st. induction ls as [|l ls IH]; intros st; simpl; [by constructor|].
  destruct (layer_body st l) as [st1|?] eqn:Hstep; simpl; [|done].
  intros Hrest Href. constructor.
  - by eapply check_layer_return_projection.
  - eapply IH; [done|]. by eapply check_layer_reference.
Qed.

(** C1 (as the code has it): the reference projection stays the default
    after every prefix of the list, so the branch that adopts a layer's
    projection is never taken; validation fails with a projection mismatch
    exactly when some layer's projection differs from the default and every
    check that comes before that layer's projection check passes (the layers
    before it, and its own keywords); and validation never succeeds on a list
    with a layer whose projection is not the default. *)
Theorem projection_consistency (layers : list layer) :
  (forall l1 l2 st,
      layers = l1 ++ l2 ->
      for_fold (check_layer REQUIRED_KEYWORDS allclose_geometry)
               (initial_locals DEFAULT_PROJECTION) l1 = Return st ->
      reference_projection st = Some DEFAULT_PROJECTION)
  /\ (fails_with
        (check_data_integrity DEFAULT_PROJECTION REQUIRED_KEYWORDS
                              allclose_geometry layers)
        KProjectionMismatch
      <-> exists l1 l l2 st,
            layers = l1 ++ l :: l2
            /\ for_fold (check_layer REQUIRED_KEYWORDS allclose_geometry)
                        (initial_locals DEFAULT_PROJECTION) l1 = Return st
            /\ for_each (check_keyword l) REQUIRED_KEYWORDS = Return tt
            /\ projection l <> DEFAULT_PROJECTION)
  /\ (check_data_integrity DEFAULT_PROJECTION REQUIRED_KEYWORDS
                           allclose_geometry layers = Return tt ->
      Forall (fun l => projection l = DEFAULT_PROJECTION) layers).
Proof.
  split; [|split].
  - intros l1 l2 st _ Hfold. by eapply first_pass_reference_from.
  - unfold fails_with, check_data_integrity. split.
    + intros (e & He & Hk).
      destruct (first_pass layers) as [st|e'] eqn:Hfold; simpl in He.
      * destruct (check_alignment_kind _ _ He); congruence.
      * injection He as ->.
        apply for_fold_raise in Hfold as (l1 & l & l2 & st & -> & Hl1 & Hl).
        exists l1, l, l2, st. split; [done|]. split; [done|].
        apply (check_layer_projection_mismatch st l).
        -- by eapply first_pass_reference_from.
        -- by exists e.
    + intros (l1 & l & l2 & st & -> & Hl1 & Hkw & Hne).
      assert (Href : reference_projection st = Some DEFAULT_PROJECTION)
        by by eapply first_pass_reference_from.
      destruct (proj2 (check_layer_projection_mismatch st l Href))
        as (e & He & Hk); [done|].
      exists e. split; [|done].
      rewrite for_fold_app, Hl1. simpl. by rewrite He.
  - unfold check_data_integrity.
    destruct (first_pass layers) as [st|e'] eqn:Hfold; simpl; [|done].
    intros _. by eapply first_pass_return_projection.
Qed.

(** ** Raster alignment *)

Lemma check_aligned_return M N refname (l : layer) :
  check_aligned M N refname l = Return tt
  <-> forall d, raster_dims l = Some d -> d = (M, N).
Proof.
  unfold check_aligned, raster_dims, assert.
  destruct (data l) as [r c gt|geom len]; [|by split].
  destruct (Z.eqb_spec r M) as [->|Hr]; simpl.
  - destruct (Z.eqb_spec c N) as [->|Hc].
    + split; [by intros _ d [= <-] | done].
    + split; [done|]. intros Hd. specialize (Hd _ eq_refl). congruence.
  - split; [done|]. intros Hd. specialize (Hd _ eq_refl). congruence.
Qed.

Lemma check_aligned_raise M N refname (l : layer) e :
  check_aligned M N refname l = Raise e ->
  exists d, raster_dims l = Some d /\ (d.1 <> M \/ d.2 <> N).
Proof.
  unfold check_aligned, raster_dims, assert.
  destruct (data l) as [r c gt|geom len]; [|done].
  destruct (Z.eqb_spec r M) as [->|Hr]; simpl.
  - destruct (Z.eqb_spec c N) as [->|Hc]; [done|].
    intros _. exists (M, c). split; [done|]. by right.
  - intros _. exists (r, c). split; [done|]. by left.
Qed.

Lemma aligned_with_reference (ls : list layer) (ref : layer) M N :
  ref ∈ ls -> raster_dims ref = Some (M, N) ->
  Forall (fun l => forall d, raster_dims l = Some d -> d = (M, N)) ls
  <-> rasters_aligned ls.
Proof.
  intros Hin Href. rewrite Forall_forall. split.
  - intros Hall a b da db Ha Hb Hda Hdb.
    rewrite (Hall a Ha da Hda), (Hall b Hb db Hdb). done.
  - intros Hal l Hl [r c] Hd.
    destruct (Hal l ref (r, c) (M, N) Hl Hin Hd Href) as [H1 H2].
    simpl in *. congruence.
Qed.

Lemma misaligned_not_aligned (ls : list layer) :
  rasters_misaligned ls -> ~ rasters_aligned ls.
Proof.
  intros (a & b & da & db & Ha & Hb & Hda & Hdb & Hne) Hal.
  destruct (Hal a b da db Ha Hb Hda Hdb). destruct Hne; done.
Qed.

(** The second pass on a list that starts with a raster. *)
Lemma check_alignment_raster_first (first : layer) rest M N :
  raster_dims first = Some (M, N) ->
  check_alignment (first :: rest)
  = for_each (check_aligned M N (name first)) (first :: rest).
Proof.
  unfold check_alignment, get_rows, get_columns, raster_dims. simpl.
  destruct (data first); [|done]. by intros [= -> ->].
Qed.

Lemma check_alignment_vector_first (first : layer) rest :
  is_vector first = true ->
  check_alignment (first :: rest) = Raise (AttributeError "rows").
Proof.
  unfold check_alignment, get_rows, is_vector. simpl.
  by destruct (data first).
Qed.

(** X1: a list that starts with a vector layer is never validated.  When
    the first loop passes, the second pass stops at [layer_files[0].rows], an
    attribute a vector does not have, whatever the rasters behind it look
    like. *)
Theorem vector_first_never_validated (first : layer) (rest : list layer) :
  is_vector first = true ->
  check_data_integrity DEFAULT_PROJECTION REQUIRED_KEYWORDS allclose_geometry
                       (first :: rest) <> Return tt
  /\ (forall st,
        for_fold (check_layer REQUIRED_KEYWORDS allclose_geometry)
                 (initial_locals DEFAULT_PROJECTION) (first :: rest)
        = Return st ->
        check_data_integrity DEFAULT_PROJECTION REQUIRED_KEYWORDS
                             allclose_geometry (first :: rest)
        = Raise (AttributeError "rows")).
Proof.
  intros Hvec. unfold check_data_integrity.
  rewrite (check_alignment_vector_first first rest Hvec). split.
  - by destruct (for_fold _ _ _).
  - by intros st ->.
Qed.

(** C3 (as the code has it): on a list whose first element is a raster and
    whose layers pass the per-layer checks of the first loop, validation
    succeeds exactly when all raster layers have equal rows and equal
    columns, and fails with a dimension mismatch exactly when two raster
    layers differ in rows or in columns. *)
Theorem raster_alignment (first : layer) (rest : list layer) st :
  is_raster first = true ->
  for_fold (check_layer REQUIRED_KEYWORDS allclose_geometry)
           (initial_locals DEFAULT_PROJECTION) (first :: rest) = Return st ->
  (check_data_integrity DEFAULT_PROJECTION REQUIRED_KEYWORDS allclose_geometry
                        (first :: rest) = Return tt
   <-> rasters_aligned (first :: rest))
  /\ (fails_with
        (check_data_integrity DEFAULT_PROJECTION REQUIRED_KEYWORDS
                              allclose_geometry (first :: rest))
        KDimensionMismatch
      <-> rasters_misaligned (first :: rest)).
Proof.
  intros Hraster Hfold.
  assert (exists M N, raster_dims first = Some (M, N)) as (M & N & Hdims).
  { unfold is_raster in Hraster. unfold raster_dims.
    destruct (data first); [eauto | done]. }
  assert (Hin : first ∈ first :: rest) by apply list_elem_of_here.
  unfold check_data_integrity, fails_with. rewrite Hfold. simpl obind.
  rewrite (check_alignment_raster_first _ _ _ _ Hdims).
  set (body := check_aligned M N (name first)).
  assert (Hok : for_each body (first :: rest) = Return tt
                <-> rasters_aligned (first :: rest)).
  { rewrite for_each_return.
    rewrite <- (aligned_with_reference _ first M N Hin Hdims).
    apply Forall_iff. intros l. apply check_aligned_return. }
  split; [done|]. split.
  - intros (e & He & _).
    apply for_each_raise in He as (l1 & x & l2 & Heq & _ & Hx).
    apply check_aligned_raise in Hx as (d & Hd & Hne).
    exists first, x, (M, N), d. rewrite Heq.
    split; [rewrite <- Heq; done|].
    split; [apply elem_of_app; right; apply list_elem_of_here|].
    split; [done|]. split; [done|]. simpl. destruct Hne; [left|right]; congruence.
  - intros Hmis. apply misaligned_not_aligned in Hmis.
    destruct (for_each_total body (first :: rest)) as [Hret|[e He]].
    + by apply Hok in Hret.
    + exists e. split; [done|].
      apply for_each_raise in He as (? & x & ? & _ & _ & Hx).
      by eapply check_aligned_kind.
Qed.

(** ** Geotransform comparison *)

Lemma check_projection_geotransform st (l : layer) st' :
  check_projection st l = Return st' -> geotransform st' = geotransform st.
Proof.
  unfold check_projection. destruct (reference_projection st).
  - intros Hs. apply obind_return in Hs as ([] & _ & [= <-]). done.
  - by intros [= <-].
Qed.

Lemma check_coordinates_geotransform st (l : layer) st' :
  check_coordinates allclose_geometry st l = Return st' ->
  geotransform st' = geotransform st.
Proof.
  unfold check_coordinates. destruct (data l) as [r c gt|geom len].
  - by intros [= <-].
  - intros Hs. apply obind_return in Hs as (st1 & Hs1 & Hs).
    apply obind_return in Hs as ([] & _ & [= <-]).
    destruct (coordinates st).
    + apply obind_return in Hs1 as ([] & _ & [= <-]). done.
    + by injection Hs1 as <-.
Qed.

Lemma check_geotransform_geotransform st (l : layer) st' :
  check_geotransform st l = Return st' ->
  geotransform st'
  = match geotransform st with
    | Some g => Some g
    | None => raster_geotransform l
    end.
Proof.
  unfold check_geotransform, raster_geotransform.
  destruct (data l) as [r c gt|geom len].
  - destruct (geotransform st) as [g0|] eqn:Hg.
    + intros Hs. apply obind_return in Hs as ([] & _ & [= <-]). done.
    + by intros [= <-].
  - intros [= <-]. by destruct (geotransform st).
Qed.

Lemma check_layer_geotransform st (l : layer) st' :
  layer_body st l = Return st' ->
  geotransform st'
  = match geotransform st with
    | Some g => Some g
    | None => raster_geotransform l
    end.
Proof.
  intros Hstep.
  apply check_layer_return in Hstep as (st1 & st2 & _ & Hp & Hg & Hc).
  rewrite (check_coordinates_geotransform _ _ _ Hc).
  rewrite (check_geotransform_geotransform _ _ _ Hg).
  by rewrite (check_projection_geotransform _ _ _ Hp).
Qed.

(** [allclose] is [isclose] on each of the six components. *)
Lemma allclose_components rtol atol a1 a2 a3 a4 a5 a6 b1 b2 b3 b4 b5 b6 :
  allclose rtol atol (a1, a2, a3, a4, a5, a6) (b1, b2, b3, b4, b5, b6)
  = isclose rtol atol a1 b1 && isclose rtol atol a2 b2
    && isclose rtol atol a3 b3 && isclose rtol atol a4 b4
    && isclose rtol atol a5 b5 && isclose rtol atol a6 b6.
Proof.
  unfold allclose. simpl. rewrite andb_true_r.
  by rewrite !andb_assoc.
Qed.

(** The reference geotransform is the one of the first raster seen. *)
Lemma first_pass_geotransform st (ls : list layer) st' :
  for_fold layer_body st ls = Return st' ->
  geotransform st'
  = match geotransform st with
    | Some g => Some g
    | None => first_raster_geotransform ls
    end.
Proof.
  revert st. induction ls as [|l ls IH]; intros st; simpl.
  - intros [= <-]. by destruct (geotransform st).
  - destruct (layer_body st l) as [st1|?] eqn:Hstep; simpl; [|done].
    intros Hrest. rewrite (IH _ Hrest), (check_layer_geotransform _ _ _ Hstep).
    destruct (geotransform st); [done|]. by destruct (raster_geotransform l).
Qed.

(** What the loop body does on a raster with complete keywords and the
    default projection, once a reference geotransform is set. *)
Lemma check_layer_later_raster st (r : layer) rows columns g g0 :
  reference_projection st = Some DEFAULT_PROJECTION ->
  geotransform st = Some g0 ->
  data r = RasterData rows columns g ->
  for_each (check_keyword r) REQUIRED_KEYWORDS = Return tt ->
  projection r = DEFAULT_PROJECTION ->
  layer_body st r
  = if allclose geotransform_rtol default_atol g0 g
    then Return st
    else Raise (GeotransformMismatch g0 g).
Proof.
  intros Href Hgt Hdata Hkw Hproj.
  unfold check_layer, check_projection, check_geotransform, check_coordinates.
  rewrite Hkw, Href, Hproj. simpl.
  rewrite bool_decide_eq_true_2 by done. simpl.
  rewrite Hdata, Hgt. unfold assert.
  destruct (allclose _ _ _ _); simpl; done.
Qed.

(** C4 (as the code has it): a raster that follows the first raster of the
    list, and that reaches the geotransform check, is accepted when
    [numpy.allclose] holds between the first raster's geotransform and its
    own, that is when every component satisfies
    [|reference - own| <= 1e-8 + 1e-12 * |own|], and is rejected with a
    geotransform mismatch otherwise.  The absolute term [1e-8] is the default
    [atol] of [numpy.allclose], which the call leaves in place. *)
Theorem geotransform_tolerance
  (l1 : list layer) (r : layer) (l2 : list layer) st g0 rows columns g :
  for_fold (check_layer REQUIRED_KEYWORDS allclose_geometry)
           (initial_locals DEFAULT_PROJECTION) l1 = Return st ->
  first_raster_geotransform l1 = Some g0 ->
  data r = RasterData rows columns g ->
  for_each (check_keyword r) REQUIRED_KEYWORDS = Return tt ->
  projection r = DEFAULT_PROJECTION ->
  (allclose 1.0e-12%float 1.0e-8%float g0 g = true ->
   for_fold (check_layer REQUIRED_KEYWORDS allclose_geometry)
            (initial_locals DEFAULT_PROJECTION) (l1 ++ [r]) = Return st)
  /\ (allclose 1.0e-12%float 1.0e-8%float g0 g = false ->
      check_data_integrity DEFAULT_PROJECTION REQUIRED_KEYWORDS allclose_geometry
                           (l1 ++ r :: l2)
      = Raise (GeotransformMismatch g0 g)).
Proof.
  intros Hfold Hfirst Hdata Hkw Hproj.
  assert (Href : reference_projection st = Some DEFAULT_PROJECTION)
    by by eapply first_pass_reference_from.
  assert (Hgt : geotransform st = Some g0).
  { rewrite (first_pass_geotransform _ _ _ Hfold). done. }
  pose proof (check_layer_later_raster st r rows columns g g0
                Href Hgt Hdata Hkw Hproj) as Hstep.
  change 1.0e-12%float with geotransform_rtol.
  change 1.0e-8%float with default_atol.
  split; intros Hclose; rewrite Hclose in Hstep.
  - rewrite for_fold_app, Hfold. simpl. by rewrite Hstep.
  - unfold check_data_integrity. rewrite for_fold_app, Hfold. simpl.
    by rewrite Hstep.
Qed.

(** ** [calculate_impact]: the successful run *)

(** C9 (as the code has it): a successful call has passed validation, has
    instantiated and run the impact function, has generated a file name,
    assigned it and written the result, and only then, when the result had no
    name, has assigned the default name.  The stages are validated, computed,
    persisted, named, returned: what is written is the result before it is
    named. *)
Theorem calculate_impact_stages
  (layers : list layer) impact_fcn comment (w : world) F w' :
  calculate_impact DEFAULT_PROJECTION REQUIRED_KEYWORDS allclose_geometry
                   unique_filename write_succeeds layers impact_fcn comment w
    = (Return F, w') ->
  check_data_integrity DEFAULT_PROJECTION REQUIRED_KEYWORDS allclose_geometry
                       layers = Return tt
  /\ exists F0,
      run impact_fcn layers = Some F0
      /\ let extension := if res_is_raster F0 then ".tif" else ".shp" in
         let output_filename := unique_filename (issued w) extension in
         let F1 := set_filename F0 output_filename in
         let named := if name_unset F1
                      then [NameAssigned (default_name layers impact_fcn)]
                      else [] in
         log w' = log w ++ [Instantiated; Ran;
                            NameGenerated extension output_filename;
                            FilenameAssigned output_filename;
                            Written output_filename F1] ++ named
         /\ files w' = <[output_filename := F1]> (files w)
         /\ F = (if name_unset F1
                 then set_name F1 (default_name layers impact_fcn)
                 else F1)
         /\ persisted_before_named ([Written output_filename F1] ++ named).
Proof.
  unfold calculate_impact, ebind, lift, emit, eraise, eret,
    gen_unique_filename, write_to_file.
  destruct (check_data_integrity _ _ _ layers) as [[]|e]; [|done].
  simpl. destruct (run impact_fcn layers) as [F0|]; [|done].
  simpl. intros Hrun. split; [done|]. exists F0. split; [done|].
  destruct (write_succeeds _ _); [|done].
  assert (Horder : forall named,
             named = [] \/ (exists n, named = [NameAssigned n]) ->
             persisted_before_named
               ([Written (unique_filename (issued w)
                            (if res_is_raster F0 then ".tif" else ".shp"))
                   (set_filename F0
                      (unique_filename (issued w)
                         (if res_is_raster F0 then ".tif" else ".shp")))]
                  ++ named)).
  { intros named Hnamed i j ev1 ev2 Hi Hj Hw Hn.
    destruct Hnamed as [->|[n ->]]; simpl in *.
    - destruct j as [|[|j]]; simplify_eq/=.
    - destruct i as [|[|i]], j as [|[|j]]; simplify_eq/=. lia. }
  destruct (name_unset _) eqn:Hname; simpl in Hrun; injection Hrun as <- <-;
    simpl; rewrite <- ?app_assoc; simpl.
  - repeat split; try done. apply Horder. right. eauto.
  - repeat split; try done. apply Horder. by left.
Qed.

(** ** The default name *)

Lemma append_cons ch (a b : string) : String ch a +:+ b = String ch (a +:+ b).
Proof. reflexivity. Qed.


Lemma append_assoc (a b c : string) : (a +:+ b) +:+ c = a +:+ (b +:+ c).
Proof. induction a as [|ch a IH]; [done|]. by rewrite !append_cons, IH. Qed.

Lemma append_length (a b : string) :
  String.length (a +:+ b) = (String.length a + String.length b)%nat.
Proof.
  induction a as [|ch a IH]; [done|]. rewrite append_cons. simpl. by rewrite IH.
Qed.

Lemma substring_prefix (a b : string) :
  String.substring 0 (String.length a) (a +:+ b) = a.
Proof.
  induction a as [|ch a IH]; [by destruct b|].
  rewrite append_cons. simpl. by rewrite IH.
Qed.

(** Cutting two characters off a string that ends in the separator leaves
    the blank the separator starts with. *)
Lemma drop_last_separator (a : string) : drop_last 2 (a +:+ " X ") = a +:+ " ".
Proof.
  unfold drop_last. rewrite append_length.
  replace (String.length a + String.length " X " - 2)%nat
    with (String.length (a +:+ " ")).
  - change " X " with (" " +:+ "X ").
    rewrite <- append_assoc. apply substring_prefix.
  - rewrite append_length. simpl. lia.
Qed.


Lemma joined_names_snoc (ls : list layer) (l : layer) :
  joined_names (ls ++ [l]) = joined_names ls +:+ name l +:+ " X ".
Proof. unfold joined_names at 1. by rewrite fold_left_app. Qed.

(** X2: without [plugin_name] the default name of a non-empty list is the
    layer names joined by the separator and followed by one blank: of the
    three characters of the last separator only two are cut. *)
Theorem default_name_trailing_blank (ls : list layer) (l : layer) impact_function :
  plugin_name impact_function = None ->
  default_name (ls ++ [l]) impact_function
  = joined_names ls +:+ name l +:+ " ".
Proof.
  intros Hnone. unfold default_name. rewrite Hnone, joined_names_snoc.
  rewrite <- append_assoc, drop_last_separator. by rewrite append_assoc.
Qed.

(** X3: the file name of a returned result is the generated name with the
    extension of the result's own type: [.tif] for a raster result, [.shp]
    otherwise, whatever the types of the input layers. *)
Theorem calculate_impact_extension
  (layers : list layer) impact_fcn comment (w : world) F w' :
  calculate_impact DEFAULT_PROJECTION REQUIRED_KEYWORDS allclose_geometry
                   unique_filename write_succeeds layers impact_fcn comment w
    = (Return F, w') ->
  exists F0,
    run impact_fcn layers = Some F0
    /\ res_is_raster F = res_is_raster F0
    /\ res_filename F
       = Some (unique_filename (issued w)
                 (if res_is_raster F0 then ".tif" else ".shp")).
Proof.
  unfold calculate_impact, ebind, lift, emit, eraise, eret,
    gen_unique_filename, write_to_file.
  destruct (check_data_integrity _ _ _ layers) as [[]|e]; [|done].
  simpl. destruct (run impact_fcn layers) as [F0|]; [|done].
  simpl. destruct (write_succeeds _ _); [|done].
  intros Hrun. exists F0. split; [done|].
  destruct (name_unset _); simpl in Hrun; by injection Hrun as <- <-.
Qed.

(** ** [get_bounding_boxes] *)

(** Once both layers are resolved, the rest of the function is decided by
    [list(req_bbox)] and by the intersection primitive. *)
Lemma get_bounding_boxes_resolved haz_data exp_data req_bbox
  (w : world) (haz_layer exp_layer : layer) w1 w2 :
  resolve_layer read_layer haz_data w = (Return haz_layer, w1) ->
  resolve_layer read_layer exp_data w1 = (Return exp_layer, w2) ->
  get_bounding_boxes read_layer bbox_intersection bboxlist2string
                     haz_data exp_data req_bbox w
  = match py_list req_bbox with
    | None => (Raise (InvalidBoundingBox req_bbox), w2)
    | Some vpt_bbox =>
        let haz_bbox := bounding_box haz_layer in
        let exp_bbox := bounding_box exp_layer in
        let w3 := with_events w2 [Intersected vpt_bbox haz_bbox exp_bbox] in
        match bbox_intersection vpt_bbox haz_bbox exp_bbox with
        | Raise e => (Raise e, w3)
        | Return None =>
            let msg := overlap_message bboxlist2string haz_bbox exp_bbox vpt_bbox in
            (Raise (NoOverlap msg), with_events w3 [Logged msg])
        | Return (Some box) => (Return (box, None), w3)
        end
    end.
Proof.
  intros Hhaz Hexp. unfold get_bounding_boxes, ebind. rewrite Hhaz, Hexp.
  destruct (py_list req_bbox) as [vpt|]; [|done].
  unfold emit, lift, eraise, eret, with_events. simpl.
  destruct (bbox_intersection _ _ _) as [[box|]|e]; done.
Qed.

(** C5 (as the code has it): with both layers resolved, the function raises
    its invalid-bounding-box error exactly when [list(req_bbox)] fails, and
    then the primitive is not called.  Every sequence, of whatever length, is
    handed to the intersection primitive as it is, and the outcome is the
    primitive's: its exception, the no-overlap error, or its box. *)
Theorem get_bounding_boxes_coercion haz_data exp_data req_bbox
  (w : world) (haz_layer exp_layer : layer) w1 w2 :
  resolve_layer read_layer haz_data w = (Return haz_layer, w1) ->
  resolve_layer read_layer exp_data w1 = (Return exp_layer, w2) ->
  (py_list req_bbox = None ->
   get_bounding_boxes read_layer bbox_intersection bboxlist2string
                      haz_data exp_data req_bbox w
   = (Raise (InvalidBoundingBox req_bbox), w2))
  /\ (forall vpt_bbox, py_list req_bbox = Some vpt_bbox ->
      let haz_bbox := bounding_box haz_layer in
      let exp_bbox := bounding_box exp_layer in
      exists o w3,
        get_bounding_boxes read_layer bbox_intersection bboxlist2string
                           haz_data exp_data req_bbox w = (o, w3)
        /\ o = match bbox_intersection vpt_bbox haz_bbox exp_bbox with
               | Raise e => Raise e
               | Return None =>
                   Raise (NoOverlap (overlap_message bboxlist2string
                                       haz_bbox exp_bbox vpt_bbox))
               | Return (Some box) => Return (box, None)
               end
        /\ exists later,
            log w3 = log w2 ++ Intersected vpt_bbox haz_bbox exp_bbox :: later).
Proof.
  intros Hhaz Hexp.
  rewrite (get_bounding_boxes_resolved _ _ _ _ _ _ _ _ Hhaz Hexp).
  split.
  - by intros ->.
  - intros vpt -> haz_bbox exp_bbox. simpl.
    destruct (bbox_intersection _ _ _) as [[box|]|e];
      eexists _, _; (split; [reflexivity|]); (split; [reflexivity|]); simpl.
    + by exists [].
    + rewrite <- app_assoc. by eexists.
    + by exists [].
Qed.

(** *** Boxes that cannot overlap *)

(** A float below 1 is not above a float above 5: the comparisons the
    no-overlap example needs. *)
Lemma below_one_below_five (x : float) :
  PrimFloat.ltb x 1 = true -> PrimFloat.leb x 5 = true.
Proof. float_order_cases. Qed.

Lemma above_five_above_one (x : float) :
  PrimFloat.ltb 5 x = true -> PrimFloat.leb 1 x = true.
Proof. float_order_cases. Qed.

Lemma below_one_above_five (lo hi : float) :
  PrimFloat.ltb lo 1 = true -> PrimFloat.ltb 5 hi = true ->
  PrimFloat.leb lo hi = true.
Proof. float_order_cases. Qed.

(** Whatever the third box, the east of the intersection of [0,0,1,1] and
    [5,5,6,6] is not beyond its west. *)
Lemma unit_box_east_of_west (w e : float) :
  PrimFloat.leb (fmin (fmin 1 6) e) (fmax (fmax 0 5) w) = true.
Proof.
  change (fmin 1 6) with 1%float. change (fmax 0 5) with 5%float.
  unfold fmin, fmax.
  destruct (PrimFloat.ltb e 1) eqn:He, (PrimFloat.ltb 5 w) eqn:Hw.
  - by apply below_one_above_five.
  - by apply below_one_below_five.
  - by apply above_five_above_one.
  - reflexivity.
Qed.

Lemma occurs_in_middle (before needle after : string) :
  occurs_in needle (before +:+ needle +:+ after).
Proof. by exists before, after. Qed.

(** C6: when the intersection primitive returns [None], the function raises
    the no-overlap error, and the message holds the formatted hazard,
    exposure and viewport boxes.  In particular, with the viewport
    [0,0,1,1] and a hazard box [5,5,6,6] the intersection (maximum of the
    wests and souths, minimum of the easts and norths) is empty whatever the
    exposure box is, and the function raises the no-overlap error. *)
Theorem get_bounding_boxes_no_overlap :
  (forall haz_data exp_data req_bbox (w : world)
          (haz_layer exp_layer : layer) w1 w2 vpt_bbox,
      resolve_layer read_layer haz_data w = (Return haz_layer, w1) ->
      resolve_layer read_layer exp_data w1 = (Return exp_layer, w2) ->
      py_list req_bbox = Some vpt_bbox ->
      bbox_intersection vpt_bbox (bounding_box haz_layer)
                        (bounding_box exp_layer) = Return None ->
      exists msg w3,
        get_bounding_boxes read_layer bbox_intersection bboxlist2string
                           haz_data exp_data req_bbox w
        = (Raise (NoOverlap msg), w3)
        /\ class_of (@NoOverlap Projection Geometry msg) = OverlapError
        /\ occurs_in
             (bboxlist2string (List.map PyFloat (bounding_box haz_layer)) 3) msg
        /\ occurs_in
             (bboxlist2string (List.map PyFloat (bounding_box exp_layer)) 3) msg
        /\ occurs_in (bboxlist2string vpt_bbox 3) msg)
  /\ (forall (haz_layer exp_layer : layer) (w : world) west south east north,
         bounding_box haz_layer = [5; 5; 6; 6]%float ->
         bounding_box exp_layer = [west; south; east; north] ->
         exists msg w3,
           get_bounding_boxes read_layer bbox_intersection_model bboxlist2string
                              (SpatialObject haz_layer) (SpatialObject exp_layer)
                              (PyList [PyFloat 0; PyFloat 0; PyFloat 1; PyFloat 1])
                              w
           = (Raise (NoOverlap msg), w3)
           /\ class_of (@NoOverlap Projection Geometry msg) = OverlapError).
Proof.
  split.
  - intros haz_data exp_data req_bbox w haz_layer exp_layer w1 w2 vpt
           Hhaz Hexp Hreq Hnone.
    rewrite (get_bounding_boxes_resolved _ _ _ _ _ _ _ _ Hhaz Hexp).
    rewrite Hreq. simpl. rewrite Hnone.
    eexists _, _. split; [reflexivity|]. split; [reflexivity|].
    unfold overlap_message. split; [|split].
    + apply occurs_in_middle.
    + rewrite <- !(append_assoc "Bounding boxes of hazard data [").
      rewrite <- (append_assoc _ "], exposure data [").
      apply occurs_in_middle.
    + do 4 rewrite <- (append_assoc _ _ (bboxlist2string vpt _ +:+ _)).
      apply occurs_in_middle.
  - intros haz_layer exp_layer w west south east north Hhaz Hexp.
    unfold get_bounding_boxes, ebind, resolve_layer, eret, emit, lift, eraise.
    simpl. rewrite Hhaz, Hexp. unfold bbox_intersection_model. simpl.
    rewrite unit_box_east_of_west. simpl.
    eexists _, _. by split.
Qed.


(** ** The lists that validation accepts *)

Lemma truthy_nonempty (val : string) : truthy val = true <-> val <> "".
Proof. destruct val; simpl; split; done. Qed.

Lemma check_keyword_return (l : layer) kw :
  check_keyword l kw = Return tt
  <-> exists val, keywords l !! kw = Some val /\ val <> "".
Proof.
  unfold check_keyword, assert. destruct (keywords l !! kw) as [val|].
  - destruct (truthy val) eqn:Ht.
    + split; [|done]. intros _. exists val. split; [done|].
      by apply truthy_nonempty.
    + split; [done|]. intros (v & [= <-] & Hv).
      apply truthy_nonempty in Hv. congruence.
  - split; [done|]. by intros (v & ? & _).
Qed.

Lemma check_keywords_return (l : layer) :
  for_each (check_keyword l) REQUIRED_KEYWORDS = Return tt
  <-> keywords_complete REQUIRED_KEYWORDS l.
Proof.
  rewrite for_each_return, Forall_forall. unfold keywords_complete.
  split; intros Hall kw Hkw; apply check_keyword_return; by apply Hall.
Qed.

Lemma check_geotransform_accepts st (l : layer) :
  (exists st', check_geotransform st l = Return st')
  <-> (forall g0 g, geotransform st = Some g0 ->
         raster_geotransform l = Some g ->
         allclose geotransform_rtol default_atol g0 g = true).
Proof.
  unfold check_geotransform, raster_geotransform, assert.
  destruct (data l) as [r c gt|geom len].
  - destruct (geotransform st) as [g0|].
    + destruct (allclose _ _ g0 gt) eqn:Hc; simpl.
      * split; [by intros _ ?? [= <-] [= <-] | eauto].
      * split; [by intros [? ?] |].
        intros Hall. specialize (Hall _ _ eq_refl eq_refl). congruence.
    + split; [done | eauto].
  - split; [done | eauto].
Qed.

Lemma check_coordinates_accepts st (l : layer) :
  (exists st', check_coordinates allclose_geometry st l = Return st')
  <-> (forall c0 c, coordinates st = Some c0 -> vector_geometry l = Some c ->
         allclose_geometry c0 c = true)
      /\ (forall len, vector_length l = Some len -> 0 < len).
Proof.
  unfold check_coordinates, vector_geometry, vector_length, assert.
  destruct (data l) as [r c gt|geom len].
  - split; [done | eauto].
  - destruct (coordinates st) as [c0|]; simpl.
    + destruct (allclose_geometry c0 geom) eqn:Hc; simpl.
      * destruct (Z.ltb_spec 0 len); simpl.
        -- split; [|eauto]. intros _.
           split; [by intros ?? [= <-] [= <-] | by intros ? [= <-]].
        -- split; [by intros [? ?] |]. intros [_ Hlen].
           specialize (Hlen _ eq_refl). lia.
      * split; [by intros [? ?] |]. intros [Hall _].
        specialize (Hall _ _ eq_refl eq_refl). congruence.
    + destruct (Z.ltb_spec 0 len); simpl.
      * split; [|eauto]. intros _. split; [done | by intros ? [= <-]].
      * split; [by intros [? ?] |]. intros [_ Hlen].
        specialize (Hlen _ eq_refl). lia.
Qed.

Lemma check_geotransform_coordinates st (l : layer) st' :
  check_geotransform st l = Return st' -> coordinates st' = coordinates st.
Proof.
  unfold check_geotransform. destruct (data l) as [r c gt|geom len].
  - destruct (geotransform st).
    + intros Hs. apply obind_return in Hs as ([] & _ & [= <-]). done.
    + by intros [= <-].
  - by intros [= <-].
Qed.

Lemma check_coordinates_coordinates st (l : layer) st' :
  check_coordinates allclose_geometry st l = Return st' ->
  coordinates st'
  = match coordinates st with
    | Some c => Some c
    | None => vector_geometry l
    end.
Proof.
  unfold check_coordinates, vector_geometry.
  destruct (data l) as [r c gt|geom len].
  - intros [= <-]. by destruct (coordinates st).
  - intros Hs. apply obind_return in Hs as (st1 & Hs1 & Hs).
    apply obind_return in Hs as ([] & _ & [= <-]).
    destruct (coordinates st) as [c0|] eqn:Hco.
    + apply obind_return in Hs1 as ([] & _ & [= <-]). done.
    + by injection Hs1 as <-.
Qed.

Lemma check_layer_coordinates st (l : layer) st' :
  reference_projection st = Some DEFAULT_PROJECTION ->
  layer_body st l = Return st' ->
  coordinates st'
  = match coordinates st with
    | Some c => Some c
    | None => vector_geometry l
    end.
Proof.
  intros Href Hstep.
  apply check_layer_return in Hstep as (st1 & st2 & _ & Hp & Hg & Hc).
  destruct (check_projection_return _ _ _ _ Href Hp) as [-> _].
  rewrite (check_coordinates_coordinates _ _ _ Hc).
  by rewrite (check_geotransform_coordinates _ _ _ Hg).
Qed.

(** The reference coordinates are those of the first vector seen. *)
Lemma first_pass_coordinates st (ls : list layer) st' :
  reference_projection st = Some DEFAULT_PROJECTION ->
  for_fold layer_body st ls = Return st' ->
  coordinates st'
  = match coordinates st with
    | Some c => Some c
    | None => first_vector_geometry ls
    end.
Proof.
  revert st. induction ls as [|l ls IH]; intros st Href; simpl.
  - intros [= <-]. by destruct (coordinates st).
  - destruct (layer_body st l) as [st1|?] eqn:Hstep; simpl; [|done].
    intros Hrest.
    rewrite (IH st1 (check_layer_reference _ _ _ Hstep Href) Hrest).
    rewrite (check_layer_coordinates _ _ _ Href Hstep).
    destruct (coordinates st); [done|]. by destruct (vector_geometry l).
Qed.

(** The loop body passes exactly on the layers it accepts. *)
Lemma check_layer_accepts st (l : layer) :
  reference_projection st = Some DEFAULT_PROJECTION ->
  (exists st', layer_body st l = Return st')
  <-> keywords_complete REQUIRED_KEYWORDS l
      /\ projection l = DEFAULT_PROJECTION
      /\ (forall g0 g, geotransform st = Some g0 ->
            raster_geotransform l = Some g ->
            allclose geotransform_rtol default_atol g0 g = true)
      /\ (forall c0 c, coordinates st = Some c0 ->
            vector_geometry l = Some c -> allclose_geometry c0 c = true)
      /\ (forall len, vector_length l = Some len -> 0 < len).
Proof.
  intros Href. split.
  - intros [st' Hstep].
    pose proof Hstep as Hsteps.
    apply check_layer_return in Hsteps as (st1 & st2 & Hkw & Hp & Hg & Hc).
    destruct (check_projection_return _ _ _ _ Href Hp) as [-> Hproj].
    split; [by apply check_keywords_return|]. split; [done|].
    split; [apply check_geotransform_accepts; eauto|].
    rewrite <- (check_geotransform_coordinates _ _ _ Hg).
    apply check_coordinates_accepts. eauto.
  - intros (Hkw & Hproj & Hgt & Hco & Hlen).
    apply check_keywords_return in Hkw.
    destruct (proj2 (check_geotransform_accepts st l) Hgt) as [st2 Hg].
    destruct (proj2 (check_coordinates_accepts st2 l)) as [st' Hc].
    { rewrite (check_geotransform_coordinates _ _ _ Hg). by split. }
    exists st'. unfold check_layer, check_projection.
    rewrite Hkw, Href, Hproj. simpl.
    rewrite bool_decide_eq_true_2 by done. simpl. by rewrite Hg.
Qed.

Lemma split_snoc {A} (l1 : list A) x l2 ls y :
  l1 ++ x :: l2 = ls ++ [y] ->
  (l2 = [] /\ l1 = ls /\ x = y)
  \/ exists l2', l2 = l2' ++ [y] /\ ls = l1 ++ x :: l2'.
Proof.
  destruct l2 as [|z l2 _] using rev_ind.
  - intros Heq. left. change (l1 ++ [x] = ls ++ [y]) in Heq.
    apply app_inj_tail in Heq as [-> ->]. done.
  - intros Heq. right. exists l2.
    change (l1 ++ x :: l2 ++ [z]) with (l1 ++ (x :: l2) ++ [z]) in Heq.
    rewrite app_assoc in Heq. apply app_inj_tail in Heq as [<- ->]. done.
Qed.

(** The first loop passes exactly when every layer is accepted after the
    layers before it. *)
Lemma first_pass_accepts (ls : list layer) :
  (exists st, first_pass ls = Return st)
  <-> forall l1 l l2, ls = l1 ++ l :: l2 ->
        layer_accepted DEFAULT_PROJECTION REQUIRED_KEYWORDS allclose_geometry
                       l1 l.
Proof.
  induction ls as [|l ls IH] using rev_ind.
  - split; [|by eexists].
    intros _ l1 l l2 Heq. by destruct l1.
  - rewrite for_fold_app. split.
    + intros [st' Hrun].
      apply obind_return in Hrun as (st & Hls & Hl).
      simpl in Hl. apply obind_return in Hl as (st1 & Hl & _).
      assert (Href : reference_projection st = Some DEFAULT_PROJECTION)
        by by eapply first_pass_reference_from.
      intros l1 x l2 Heq. symmetry in Heq.
      apply split_snoc in Heq as [(-> & -> & ->)|(l2' & -> & ->)].
      * destruct (proj1 (check_layer_accepts st l Href)) as
          (Hkw & Hp & Hg & Hc & Hn); [eauto|].
        rewrite (first_pass_geotransform _ _ _ Hls) in Hg.
        rewrite (first_pass_coordinates (initial_locals DEFAULT_PROJECTION) _ _ eq_refl Hls) in Hc.
        by repeat split.
      * eapply (proj1 IH); [eauto | reflexivity].
    + intros Hall.
      destruct (proj2 IH) as [st Hls].
      { intros l1 x l2 ->. apply (Hall l1 x (l2 ++ [l])).
        by rewrite <- app_assoc. }
      assert (Href : reference_projection st = Some DEFAULT_PROJECTION)
        by by eapply first_pass_reference_from.
      destruct (Hall ls l [] eq_refl) as (Hkw & Hp & Hg & Hc & Hn).
      destruct (proj2 (check_layer_accepts st l Href)) as [st' Hl].
      { rewrite (first_pass_geotransform _ _ _ Hls).
        rewrite (first_pass_coordinates (initial_locals DEFAULT_PROJECTION) _ _ eq_refl Hls).
        by repeat split. }
      exists st'. rewrite Hls. simpl. by rewrite Hl.
Qed.

(** X4: validation succeeds on exactly the lists that start with a raster,
    whose every layer is accepted by the first loop after the layers before
    it (complete keywords, the default projection, geotransform close to the
    first raster's, geometry close to the first vector's, at least one
    feature), and whose rasters all have the same rows and columns. *)
Theorem check_data_integrity_accepts (layers : list layer) :
  check_data_integrity DEFAULT_PROJECTION REQUIRED_KEYWORDS allclose_geometry
                       layers = Return tt
  <-> (exists first rest, layers = first :: rest /\ is_raster first = true)
      /\ (forall l1 l l2, layers = l1 ++ l :: l2 ->
            layer_accepted DEFAULT_PROJECTION REQUIRED_KEYWORDS
                           allclose_geometry l1 l)
      /\ rasters_aligned layers.
Proof.
  rewrite <- first_pass_accepts. unfold check_data_integrity. split.
  - intros Hrun. apply obind_return in Hrun as (st & Hfold & Hal).
    destruct layers as [|first rest]; [done|].
    destruct (is_raster first) eqn:Hr.
    + split; [eauto|]. split; [eauto|].
      assert (exists M N, raster_dims first = Some (M, N)) as (M & N & Hd).
      { unfold is_raster in Hr. unfold raster_dims.
        destruct (data first); [eauto | done]. }
      rewrite (check_alignment_raster_first _ _ _ _ Hd) in Hal.
      apply for_each_return in Hal.
      apply (aligned_with_reference _ first M N);
        [apply list_elem_of_here | done |].
      eapply Forall_impl; [exact Hal|]. intros l. apply check_aligned_return.
    + rewrite check_alignment_vector_first in Hal; [done|].
      unfold is_raster in Hr. unfold is_vector. by destruct (data first).
  - intros ((first & rest & -> & Hr) & [st Hfold] & Hal).
    rewrite Hfold. simpl.
    assert (exists M N, raster_dims first = Some (M, N)) as (M & N & Hd).
    { unfold is_raster in Hr. unfold raster_dims.
      destruct (data first); [eauto | done]. }
    rewrite (check_alignment_raster_first _ _ _ _ Hd).
    apply for_each_return.
    apply (aligned_with_reference _ first M N) in Hal;
      [|apply list_elem_of_here | done].
    eapply Forall_impl; [exact Hal|]. intros l. apply check_aligned_return.
Qed.


(** ** The exceptions of validation *)

Lemma check_projection_kind st (l : layer) e :
  check_projection st l = Raise e ->
  validation_kind_of e = Some KProjectionMismatch.
Proof.
  unfold check_projection, assert. destruct (reference_projection st); [|done].
  destruct (bool_decide _); simpl; [done|]. by intros [= <-].
Qed.

Lemma check_geotransform_kind st (l : layer) e :
  check_geotransform st l = Raise e ->
  validation_kind_of e = Some KGeotransformMismatch.
Proof.
  unfold check_geotransform, assert. destruct (data l); [|done].
  destruct (geotransform st); [|done].
  destruct (allclose _ _ _ _); simpl; [done|]. by intros [= <-].
Qed.

Lemma check_coordinates_kind st (l : layer) e :
  check_coordinates allclose_geometry st l = Raise e ->
  validation_kind_of e = Some KCoordinateMismatch
  \/ validation_kind_of e = Some KEmptyVectorLayer.
Proof.
  unfold check_coordinates, assert. destruct (data l) as [|geom len]; [done|].
  destruct (coordinates st) as [c0|]; simpl.
  - destruct (allclose_geometry c0 geom); simpl.
    + destruct (0 <? len); simpl; [done|]. intros [= <-]. by right.
    + intros [= <-]. by left.
  - destruct (0 <? len); simpl; [done|]. intros [= <-]. by right.
Qed.

(** An exception of the loop body comes from the keyword loop, or from one
    of the later steps, whose exceptions are no keyword errors. *)
Lemma check_layer_raise st (l : layer) e :
  layer_body st l = Raise e ->
  for_each (check_keyword l) REQUIRED_KEYWORDS = Raise e
  \/ exists k, validation_kind_of e = Some k
               /\ k <> KMissingKeyword /\ k <> KEmptyKeyword.
Proof.
  unfold check_layer.
  destruct (for_each _ REQUIRED_KEYWORDS) as [[]|e0]; simpl;
    [|intros [= <-]; by left].
  intros Hstep. right.
  destruct (check_projection st l) as [st1|e1] eqn:Hp; simpl in Hstep.
  - destruct (check_geotransform st1 l) as [st2|e2] eqn:Hg; simpl in Hstep.
    + destruct (check_coordinates_kind _ _ _ Hstep) as [Hk|Hk];
        eexists; (split; [exact Hk|]); done.
    + injection Hstep as <-. eexists.
      split; [by eapply check_geotransform_kind|]. done.
  - injection Hstep as <-. eexists.
    split; [by eapply check_projection_kind|]. done.
Qed.



(** What the second pass raises, and when. *)
Lemma check_alignment_raise (ls : list layer) e :
  check_alignment ls = Raise e ->
  (e = IndexError /\ ls = [])
  \/ (e = AttributeError "rows"
      /\ exists first rest, ls = first :: rest /\ is_vector first = true)
  \/ validation_kind_of e = Some KDimensionMismatch.
Proof.
  destruct ls as [|first rest].
  - intros [= <-]. by left.
  - destruct (data first) as [r c gt|geom len] eqn:Hdata.
    + rewrite (check_alignment_raster_first first rest r c)
        by (unfold raster_dims; by rewrite Hdata).
      intros Hr. right. right.
      apply for_each_raise in Hr as (? & x & ? & _ & _ & Hx).
      by eapply check_aligned_kind.
    + assert (Hvec : is_vector first = true)
        by (unfold is_vector; by rewrite Hdata).
      rewrite (check_alignment_vector_first first rest Hvec).
      intros [= <-]. right. left. split; [done|]. by exists first, rest.
Qed.


(** X6: a keyword error names a real gap.  When validation raises the
    missing-keyword error for a layer name and a keyword, a layer of the
    list has that name and lacks that required keyword; when it raises the
    empty-keyword error, the layer has the keyword with the empty value. *)
Theorem keyword_errors_are_truthful (layers : list layer) e :
  check_data_integrity DEFAULT_PROJECTION REQUIRED_KEYWORDS allclose_geometry
                       layers = Raise e ->
  match e with
  | MissingKeyword layer_name kw =>
      exists l, l ∈ layers /\ name l = layer_name
                /\ kw ∈ REQUIRED_KEYWORDS /\ keywords l !! kw = None
  | EmptyKeyword kw layer_name =>
      exists l, l ∈ layers /\ name l = layer_name
                /\ kw ∈ REQUIRED_KEYWORDS /\ keywords l !! kw = Some ""
  | _ => True
  end.
Proof.
  unfold check_data_integrity.
  destruct (first_pass layers) as [st|e'] eqn:Hfold; simpl.
  - intros Hal.
    destruct (check_alignment_raise _ _ Hal) as [[-> _]|[[-> _]|Hk]]; [done..|].
    by destruct e.
  - intros [= <-].
    apply for_fold_raise in Hfold as (l1 & l & l2 & st & -> & _ & Hl).
    assert (Hin : l ∈ l1 ++ l :: l2)
      by (apply elem_of_app; right; apply list_elem_of_here).
    destruct (check_layer_raise _ _ _ Hl) as [Hkw|(k & Hk & Hm & He)].
    + apply for_each_raise in Hkw as (k1 & kw & k2 & Hreq & _ & Hkw).
      assert (Hkin : kw ∈ REQUIRED_KEYWORDS).
      { rewrite Hreq. apply elem_of_app. right. apply list_elem_of_here. }
      unfold check_keyword, assert in Hkw.
      destruct (keywords l !! kw) as [val|] eqn:Hlook.
      * destruct val as [|ch val]; simpl in Hkw; [|done].
        injection Hkw as <-. by exists l.
      * injection Hkw as <-. by exists l.
    + destruct e'; simpl in Hk; try done; congruence.
Qed.

(** X7: validation and prefixes.  An exception of the first loop is final:
    whatever layers are put behind the list, validation raises the same
    exception.  And every non-empty prefix of a list that validation accepts
    is accepted. *)
Theorem validation_of_prefixes (layers more : list layer) :
  (forall e,
      for_fold (check_layer REQUIRED_KEYWORDS allclose_geometry)
               (initial_locals DEFAULT_PROJECTION) layers = Raise e ->
      check_data_integrity DEFAULT_PROJECTION REQUIRED_KEYWORDS
                           allclose_geometry (layers ++ more) = Raise e)
  /\ (layers <> [] ->
      check_data_integrity DEFAULT_PROJECTION REQUIRED_KEYWORDS
                           allclose_geometry (layers ++ more) = Return tt ->
      check_data_integrity DEFAULT_PROJECTION REQUIRED_KEYWORDS
                           allclose_geometry layers = Return tt).
Proof.
  split.
  - intros e Hfold. unfold check_data_integrity.
    by rewrite for_fold_app, Hfold.
  - intros Hne. unfold check_data_integrity. rewrite for_fold_app.
    intros Hrun. apply obind_return in Hrun as (st & Hfold & Hal).
    apply obind_return in Hfold as (st0 & Hfold & _).
    rewrite Hfold. simpl.
    destruct layers as [|first rest]; [done|].
    destruct (data first) as [r c gt|geom len] eqn:Hdata.
    + assert (Hd : raster_dims first = Some (r, c))
        by (unfold raster_dims; by rewrite Hdata).
      rewrite (check_alignment_raster_first first rest r c Hd).
      change ((first :: rest) ++ more) with (first :: (rest ++ more)) in Hal.
      rewrite (check_alignment_raster_first first _ r c Hd) in Hal.
      apply for_each_return. apply for_each_return in Hal.
      change (first :: rest ++ more) with ((first :: rest) ++ more) in Hal.
      by apply Forall_app in Hal as [? _].
    + change ((first :: rest) ++ more) with (first :: (rest ++ more)) in Hal.
      rewrite check_alignment_vector_first in Hal; [done|].
      unfold is_vector. by rewrite Hdata.
Qed.


(** ** [calculate_impact], case by case *)

(** The function written out: one world and one outcome per way through
    it. *)
Lemma calculate_impact_cases (layers : list layer) impact_fcn comment (w : world) :
  impact layers impact_fcn comment w
  = match validate layers with
    | Raise e => (Raise e, w)
    | Return _ =>
        match run impact_fcn layers with
        | None =>
            (Raise (NullResult (repr impact_fcn)),
             with_events w [Instantiated; Ran])
        | Some F0 =>
            let extension := if res_is_raster F0 then ".tif" else ".shp" in
            let output_filename := unique_filename (issued w) extension in
            let F1 := set_filename F0 output_filename in
            let started := [Instantiated; Ran;
                            NameGenerated extension output_filename;
                            FilenameAssigned output_filename] in
            if write_succeeds F1 output_filename
            then
              (Return (if name_unset F1
                       then set_name F1 (default_name layers impact_fcn)
                       else F1),
               {| files := <[output_filename := F1]> (files w);
                  issued := S (issued w);
                  log := log w ++ started ++ [Written output_filename F1]
                         ++ (if name_unset F1
                             then [NameAssigned (default_name layers impact_fcn)]
                             else []) |})
            else
              (Raise (ExternalError "write_to_file"),
               {| files := files w; issued := S (issued w);
                  log := log w ++ started |})
        end
    end.
Proof.
  unfold calculate_impact, ebind, lift, emit, eraise, eret,
    gen_unique_filename, write_to_file, with_events.
  destruct (check_data_integrity _ _ _ layers) as [[]|e]; [|done].
  simpl. destruct (run impact_fcn layers) as [F0|]; simpl.
  - destruct (write_succeeds _ _); simpl.
    + destruct (name_unset _); simpl; rewrite <- ?app_assoc; done.
    + rewrite <- ?app_assoc. done.
  - rewrite <- ?app_assoc. done.
Qed.


(** X9: a call touches one file at most.  Whatever the outcome, every path
    other than the two names the generator could hand out at this request
    holds what it held before, and at most one file name is used up. *)
Theorem calculate_impact_touches_one_file
  (layers : list layer) impact_fcn comment (w : world) o w' path :
  calculate_impact DEFAULT_PROJECTION REQUIRED_KEYWORDS allclose_geometry
                   unique_filename write_succeeds layers impact_fcn comment w
    = (o, w') ->
  path <> unique_filename (issued w) ".tif" ->
  path <> unique_filename (issued w) ".shp" ->
  files w' !! path = files w !! path
  /\ (issued w <= issued w' <= S (issued w))%nat.
Proof.
  rewrite calculate_impact_cases. intros Hrun Htif Hshp.
  destruct (check_data_integrity _ _ _ layers) as [[]|e0].
  - destruct (run impact_fcn layers) as [F0|]; simpl in Hrun.
    + destruct (write_succeeds _ _); injection Hrun as <- <-; simpl.
      * split; [|lia]. apply lookup_insert_ne.
        destruct (res_is_raster F0); congruence.
      * split; [done | lia].
    + injection Hrun as <- <-. simpl. split; [done | lia].
  - injection Hrun as <- <-. split; [done | lia].
Qed.

(** X10: two successful calls in a row.  When the second result's file name
    differs from the first's, both files are there afterwards: the first
    still holds what the first call wrote, and two file names were used. *)
Theorem successive_results_are_kept
  (layers1 layers2 : list layer) fcn1 fcn2 comment1 comment2
  (w : world) F1 w1 F2 w2 :
  calculate_impact DEFAULT_PROJECTION REQUIRED_KEYWORDS allclose_geometry
                   unique_filename write_succeeds layers1 fcn1 comment1 w
    = (Return F1, w1) ->
  calculate_impact DEFAULT_PROJECTION REQUIRED_KEYWORDS allclose_geometry
                   unique_filename write_succeeds layers2 fcn2 comment2 w1
    = (Return F2, w2) ->
  res_filename F1 <> res_filename F2 ->
  exists fn1 fn2 G1 G2,
    res_filename F1 = Some fn1 /\ res_filename F2 = Some fn2
    /\ files w1 !! fn1 = Some G1
    /\ files w2 !! fn1 = Some G1
    /\ files w2 !! fn2 = Some G2
    /\ res_filename G1 = Some fn1 /\ res_filename G2 = Some fn2
    /\ issued w2 = S (S (issued w)).
Proof.
  rewrite !calculate_impact_cases. intros Hrun1 Hrun2 Hne.
  destruct (check_data_integrity _ _ _ layers1) as [[]|?]; [|done].
  destruct (run fcn1 layers1) as [A0|]; [|done]. simpl in Hrun1.
  destruct (write_succeeds _ _); [|done]. injection Hrun1 as <- <-.
  simpl in Hrun2.
  destruct (check_data_integrity _ _ _ layers2) as [[]|?]; [|done].
  destruct (run fcn2 layers2) as [B0|]; [|done]. simpl in Hrun2.
  destruct (write_succeeds _ _); [|done]. injection Hrun2 as <- <-.
  set (fn1 := unique_filename (issued w)
                (if res_is_raster A0 then ".tif" else ".shp")) in *.
  set (fn2 := unique_filename (S (issued w))
                (if res_is_raster B0 then ".tif" else ".shp")) in *.
  assert (Hfn : fn1 <> fn2).
  { intros Heq. apply Hne.
    destruct (name_unset (set_filename A0 fn1)),
      (name_unset (set_filename B0 fn2)); simpl; by rewrite Heq. }
  exists fn1, fn2, (set_filename A0 fn1), (set_filename B0 fn2). simpl.
  split; [by destruct (name_unset (set_filename A0 fn1))|].
  split; [by destruct (name_unset (set_filename B0 fn2))|].
  split; [apply lookup_insert_eq|].
  split; [rewrite lookup_insert_ne by done; apply lookup_insert_eq|].
  split; [apply lookup_insert_eq|]. done.
Qed.

(** X11: a result that comes with a name keeps it.  On a successful call
    whose result already has a non-empty name, the returned result is the
    one [run] made with the file name filled in, name untouched; it is the
    result that was written, and the write is the last event: no default
    name is assigned. *)
Theorem named_result_keeps_name
  (layers : list layer) impact_fcn comment (w : world) F w' F0 :
  calculate_impact DEFAULT_PROJECTION REQUIRED_KEYWORDS allclose_geometry
                   unique_filename write_succeeds layers impact_fcn comment w
    = (Return F, w') ->
  run impact_fcn layers = Some F0 ->
  name_unset F0 = false ->
  let extension := if res_is_raster F0 then ".tif" else ".shp" in
  let output_filename := unique_filename (issued w) extension in
  F = set_filename F0 output_filename
  /\ res_name F = res_name F0
  /\ files w' !! output_filename = Some F
  /\ log w' = log w ++ [Instantiated; Ran;
                        NameGenerated extension output_filename;
                        FilenameAssigned output_filename;
                        Written output_filename F].
Proof.
  rewrite calculate_impact_cases. intros Hrun HF0 Hname.
  destruct (check_data_integrity _ _ _ layers) as [[]|?]; [|done].
  rewrite HF0 in Hrun. simpl in Hrun.
  destruct (write_succeeds _ _); [|done].
  change (name_unset (set_filename F0 _)) with (name_unset F0) in Hrun.
  rewrite Hname in Hrun. injection Hrun as <- <-. simpl.
  split; [done|]. split; [done|]. split; [apply lookup_insert_eq|]. done.
Qed.



(** X13: [calculate_impact] returns a result exactly when validation passes,
    [run] returns a result and the writer succeeds on it. *)
Theorem calculate_impact_succeeds_iff
  (layers : list layer) impact_fcn comment (w : world) :
  (exists F w',
      calculate_impact DEFAULT_PROJECTION REQUIRED_KEYWORDS allclose_geometry
                       unique_filename write_succeeds layers impact_fcn
                       comment w
      = (Return F, w'))
  <-> check_data_integrity DEFAULT_PROJECTION REQUIRED_KEYWORDS
                           allclose_geometry layers = Return tt
      /\ exists F0,
          run impact_fcn layers = Some F0
          /\ let extension := if res_is_raster F0 then ".tif" else ".shp" in
             let output_filename := unique_filename (issued w) extension in
             write_succeeds (set_filename F0 output_filename) output_filename
             = true.
Proof.
  rewrite calculate_impact_cases. split.
  - intros (F & w' & Hrun).
    destruct (check_data_integrity _ _ _ layers) as [[]|?]; [|done].
    split; [done|].
    destruct (run impact_fcn layers) as [F0|]; [|done]. simpl in Hrun.
    exists F0. split; [done|]. simpl. by destruct (write_succeeds _ _).
  - intros (-> & F0 & -> & Hw). simpl in *. rewrite Hw. eauto.
Qed.

(** ** [get_bounding_boxes]: what a returned box is *)

(** X14: when [get_bounding_boxes] returns, both arguments were resolved to
    layers, [req_bbox] was a sequence, the box is the one the intersection
    primitive gave for that sequence and the two layers' own boxes, and the
    second component is [None].  The call of the primitive is the last
    event: nothing is logged. *)
Theorem get_bounding_boxes_returns_intersection
  haz_data exp_data req_bbox (w : world) box second w' :
  get_bounding_boxes read_layer bbox_intersection bboxlist2string
                     haz_data exp_data req_bbox w
    = (Return (box, second), w') ->
  second = None
  /\ exists (haz_layer exp_layer : layer) w1 w2 vpt_bbox,
      resolve_layer read_layer haz_data w = (Return haz_layer, w1)
      /\ resolve_layer read_layer exp_data w1 = (Return exp_layer, w2)
      /\ py_list req_bbox = Some vpt_bbox
      /\ bbox_intersection vpt_bbox (bounding_box haz_layer)
                           (bounding_box exp_layer) = Return (Some box)
      /\ w' = with_events w2 [Intersected vpt_bbox (bounding_box haz_layer)
                                          (bounding_box exp_layer)].
Proof.
  intros Hrun.
  destruct (resolve_layer read_layer haz_data w) as [[haz_layer|e] w1] eqn:Hhaz;
    [|by unfold get_bounding_boxes, ebind in Hrun; rewrite Hhaz in Hrun].
  destruct (resolve_layer read_layer exp_data w1) as [[exp_layer|e] w2] eqn:Hexp;
    [|by unfold get_bounding_boxes, ebind in Hrun; rewrite Hhaz, Hexp in Hrun].
  rewrite (get_bounding_boxes_resolved _ _ _ _ _ _ _ _ Hhaz Hexp) in Hrun.
  destruct (py_list req_bbox) as [vpt|] eqn:Hreq; [|done]. simpl in Hrun.
  destruct (bbox_intersection _ _ _) as [[b|]|e] eqn:Hprim; [|done..].
  injection Hrun as <- <- <-. split; [done|].
  by exists haz_layer, exp_layer, w1, w2, vpt.
Qed.

Lemma py_list_string (text : string) (items : list pyval) :
  py_list (PyStr text) = Some items ->
  length items = String.length text
  /\ Forall (fun item => exists ch, item = PyStr (String ch "")) items.
Proof.
  simpl. intros [= <-]. split.
  - rewrite length_map. induction text as [|ch text IH]; simpl; [done|].
    by rewrite IH.
  - apply Forall_forall. intros item Hin.
    apply list_elem_of_In, in_map_iff in Hin as (ch & <- & _). eauto.
Qed.

(** X15: a request given as text is not parsed.  [list(req_bbox)] splits a
    string into its characters, and these one-character strings, one per
    character of the text, are what the intersection primitive is called
    with. *)
Theorem get_bounding_boxes_splits_text
  haz_data exp_data text (w : world) (haz_layer exp_layer : layer) w1 w2 :
  resolve_layer read_layer haz_data w = (Return haz_layer, w1) ->
  resolve_layer read_layer exp_data w1 = (Return exp_layer, w2) ->
  exists o w3 items later,
    get_bounding_boxes read_layer bbox_intersection bboxlist2string
                       haz_data exp_data (PyStr text) w = (o, w3)
    /\ log w3 = log w2 ++ Intersected items (bounding_box haz_layer)
                                      (bounding_box exp_layer) :: later
    /\ length items = String.length text
    /\ Forall (fun item => exists ch, item = PyStr (String ch "")) items.
Proof.
  intros Hhaz Hexp.
  rewrite (get_bounding_boxes_resolved _ _ _ _ _ _ _ _ Hhaz Hexp).
  destruct (py_list (PyStr text)) as [items|] eqn:Hitems; [|done].
  destruct (py_list_string _ _ Hitems) as [Hlen Hall]. simpl.
  destruct (bbox_intersection _ _ _) as [[b|]|e]; simpl;
    eexists _, _, items, _; (split; [reflexivity|]); simpl;
    rewrite <- ?app_assoc; by repeat split.
Qed.


(** ** What the other validation errors report *)

(** The step of the loop body an exception comes from, with what the
    exception carries. *)
Lemma check_layer_raise_step st (l : layer) e :
  reference_projection st = Some DEFAULT_PROJECTION ->
  layer_body st l = Raise e ->
  for_each (check_keyword l) REQUIRED_KEYWORDS = Raise e
  \/ (e = ProjectionMismatch (name l) (projection l) DEFAULT_PROJECTION
      /\ projection l <> DEFAULT_PROJECTION)
  \/ (exists g0 g, geotransform st = Some g0
        /\ raster_geotransform l = Some g
        /\ allclose geotransform_rtol default_atol g0 g = false
        /\ e = GeotransformMismatch g0 g)
  \/ (exists c0 c, coordinates st = Some c0
        /\ vector_geometry l = Some c
        /\ allclose_geometry c0 c = false
        /\ e = CoordinateMismatch c0 c)
  \/ (exists len, vector_length l = Some len /\ len <= 0
        /\ e = EmptyVectorLayer).
Proof.
  intros Href. unfold check_layer, check_projection.
  destruct (for_each _ REQUIRED_KEYWORDS) as [[]|e0]; simpl;
    [|intros [= <-]; by left].
  rewrite Href. unfold assert at 1.
  destruct (bool_decide (DEFAULT_PROJECTION = projection l)) eqn:Hp; simpl.
  - unfold check_geotransform, check_coordinates, raster_geotransform,
      vector_geometry, vector_length, assert.
    destruct (data l) as [r c gt|geom len]; simpl.
    + destruct (geotransform st) as [g0|]; simpl; [|done].
      destruct (allclose _ _ g0 gt) eqn:Hc; simpl; [done|].
      intros [= <-]. right. right. left. by exists g0, gt.
    + destruct (coordinates st) as [c0|]; simpl.
      * destruct (allclose_geometry c0 geom) eqn:Hc; simpl.
        -- destruct (Z.ltb_spec 0 len); simpl; [done|].
           intros [= <-]. do 4 right. exists len. split; [done|]. split; [lia | done].
        -- intros [= <-]. do 3 right. left. by exists c0, geom.
      * destruct (Z.ltb_spec 0 len); simpl; [done|].
        intros [= <-]. do 4 right. exists len. split; [done|]. split; [lia | done].
  - apply bool_decide_eq_false in Hp. intros [= <-]. right. left.
    split; [done | congruence].
Qed.

Lemma check_aligned_raise_exact M N refname (l : layer) e :
  check_aligned M N refname l = Raise e ->
  exists r c, raster_dims l = Some (r, c)
    /\ ((r <> M /\ e = RowsMismatch (name l) r refname M)
        \/ (r = M /\ c <> N /\ e = ColumnsMismatch (name l) c refname N)).
Proof.
  unfold check_aligned, raster_dims, assert.
  destruct (data l) as [r c gt|geom len]; [|done].
  destruct (Z.eqb_spec r M) as [->|Hr]; simpl.
  - destruct (Z.eqb_spec c N) as [->|Hc]; [done|].
    intros [= <-]. exists M, c. split; [done|]. by right.
  - intros [= <-]. exists r, c. split; [done|]. by left.
Qed.

(** X16: the other validation errors report what is there.  A projection
    mismatch names a layer of the list with its own projection, which is not
    the default it is compared with; a geotransform (coordinate) mismatch
    carries the geotransform of the first raster (the geometry of the first
    vector) before the offending layer and that layer's own, which are not
    close; the empty-vector error means a vector layer without features; a
    rows or columns mismatch names a raster of the list with its rows
    (columns), and the first layer of the list, a raster, with its rows
    (columns) as the reference. *)
Theorem mismatch_errors_are_truthful (layers : list layer) e :
  check_data_integrity DEFAULT_PROJECTION REQUIRED_KEYWORDS allclose_geometry
                       layers = Raise e ->
  match e with
  | ProjectionMismatch layer_name actual expected =>
      expected = DEFAULT_PROJECTION /\ actual <> DEFAULT_PROJECTION
      /\ exists l, l ∈ layers /\ name l = layer_name /\ projection l = actual
  | GeotransformMismatch reference actual =>
      exists l1 l l2, layers = l1 ++ l :: l2
        /\ first_raster_geotransform l1 = Some reference
        /\ raster_geotransform l = Some actual
        /\ allclose 1.0e-12%float 1.0e-8%float reference actual = false
  | CoordinateMismatch reference actual =>
      exists l1 l l2, layers = l1 ++ l :: l2
        /\ first_vector_geometry l1 = Some reference
        /\ vector_geometry l = Some actual
        /\ allclose_geometry reference actual = false
  | EmptyVectorLayer =>
      exists l len, l ∈ layers /\ vector_length l = Some len /\ len <= 0
  | RowsMismatch layer_name rows refname M =>
      exists first rest l columns N,
        layers = first :: rest /\ name first = refname
        /\ raster_dims first = Some (M, N)
        /\ l ∈ layers /\ name l = layer_name
        /\ raster_dims l = Some (rows, columns) /\ rows <> M
  | ColumnsMismatch layer_name columns refname N =>
      exists first rest l M,
        layers = first :: rest /\ name first = refname
        /\ raster_dims first = Some (M, N)
        /\ l ∈ layers /\ name l = layer_name
        /\ raster_dims l = Some (M, columns) /\ columns <> N
  | _ => True
  end.
Proof.
  unfold check_data_integrity.
  destruct (first_pass layers) as [st|e'] eqn:Hfold; simpl.
  - intros Hal. destruct layers as [|first rest]; [by injection Hal as <-|].
    destruct (data first) as [r c gt|geom len] eqn:Hdata.
    + assert (Hd : raster_dims first = Some (r, c))
        by (unfold raster_dims; by rewrite Hdata).
      rewrite (check_alignment_raster_first first rest r c Hd) in Hal.
      apply for_each_raise in Hal as (l1 & x & l2 & Heq & _ & Hx).
      assert (Hin : x ∈ first :: rest).
      { rewrite Heq. apply elem_of_app. right. apply list_elem_of_here. }
      apply check_aligned_raise_exact in Hx
        as (rx & cx & Hdx & [[Hne ->]|(-> & Hne & ->)]).
      * by exists first, rest, x, cx, c.
      * by exists first, rest, x, r.
    + rewrite check_alignment_vector_first in Hal
        by (unfold is_vector; by rewrite Hdata).
      by injection Hal as <-.
  - intros [= <-].
    apply for_fold_raise in Hfold as (l1 & l & l2 & st & -> & Hl1 & Hl).
    assert (Hin : l ∈ l1 ++ l :: l2)
      by (apply elem_of_app; right; apply list_elem_of_here).
    assert (Href : reference_projection st = Some DEFAULT_PROJECTION)
      by by eapply first_pass_reference_from.
    pose proof (first_pass_geotransform _ _ _ Hl1) as Hgt.
    pose proof (first_pass_coordinates (initial_locals DEFAULT_PROJECTION)
                  _ _ eq_refl Hl1) as Hco.
    simpl in Hgt, Hco.
    destruct (check_layer_raise_step _ _ _ Href Hl)
      as [Hkw|[[-> Hne]|[(g0 & g & Hg0 & Hg & Hc & ->)
                        |[(c0 & c & Hc0 & Hg & Hc & ->)
                         |(len & Hlen & Hle & ->)]]]].
    + destruct (check_keywords_kind _ _ Hkw); by destruct e'.
    + split; [done|]. split; [done|]. by exists l.
    + exists l1, l, l2. rewrite <- Hgt. by repeat split.
    + exists l1, l, l2. rewrite <- Hco. by repeat split.
    + by exists l, len.
Qed.

(** ** What [calculate_impact] does not look at, and what it keeps *)

(** X17: the comment plays no part.  Two calls that differ in the comment
    alone have the same outcome and leave the same world: nothing of the
    comment reaches the result, the file or the log. *)
Theorem calculate_impact_ignores_comment
  (layers : list layer) impact_fcn comment1 comment2 (w : world) :
  calculate_impact DEFAULT_PROJECTION REQUIRED_KEYWORDS allclose_geometry
                   unique_filename write_succeeds layers impact_fcn comment1 w
  = calculate_impact DEFAULT_PROJECTION REQUIRED_KEYWORDS allclose_geometry
                     unique_filename write_succeeds layers impact_fcn comment2 w.
Proof. by rewrite !calculate_impact_cases. Qed.

(** X18: files carry their own path.  If every file holds a result whose
    file name is the file's path, this is still so after a call, whatever
    its outcome. *)
Theorem calculate_impact_keeps_files_consistent
  (layers : list layer) impact_fcn comment (w : world) o w' :
  files_consistent w ->
  calculate_impact DEFAULT_PROJECTION REQUIRED_KEYWORDS allclose_geometry
                   unique_filename write_succeeds layers impact_fcn comment w
    = (o, w') ->
  files_consistent w'.
Proof.
  intros Hcons. rewrite calculate_impact_cases.
  destruct (check_data_integrity _ _ _ layers) as [[]|?];
    [|by intros [= <- <-]].
  destruct (run impact_fcn layers) as [F0|]; simpl; [|by intros [= <- <-]].
  destruct (write_succeeds _ _); intros [= <- <-]; [|done].
  intros path F. simpl. rewrite lookup_insert.
  case_decide as Hpath; [|apply Hcons].
  intros [= <-]. by rewrite <- Hpath.
Qed.

End Properties.

(** * The model on definite inputs *)

(** ** Validation *)

(** The intersection of the three boxes of the specification's example. *)
Example bbox_intersection_model_example :
  @bbox_intersection_model string points
    [PyFloat 0; PyFloat 0; PyFloat 10; PyFloat 10]
    [2; 2; 8; 8]%float [4; 4; 12; 12]%float
  = Return (Some [4; 4; 8; 8]%float).
Proof. vm_compute. reflexivity. Qed.

(** A layer in another projection behind a raster that fails the
    geotransform check: the loop stops at the second layer and the third
    layer's projection is never looked at. *)
Lemma projection_mismatch_masked :
  (exists l, l ∈ [flood; coarse_population; utm_population]
             /\ projection l <> WGS84)
  /\ example_validate [flood; coarse_population; utm_population]
     = Raise (GeotransformMismatch unit_grid coarse_grid)
  /\ ~ fails_with (example_validate [flood; coarse_population; utm_population])
                  KProjectionMismatch.
Proof.
  split; [|split].
  - exists utm_population. split; [|done].
    do 2 apply list_elem_of_further. apply list_elem_of_here.
  - vm_compute. reflexivity.
  - intros (e & He & Hk). vm_compute in He. injection He as <-. done.
Qed.

(** A layer in another projection whose keywords are missing: the keyword
    check of the same layer comes first. *)
Lemma projection_mismatch_masked_by_keywords :
  projection unlabelled_utm <> WGS84
  /\ example_validate [unlabelled_utm] = Raise (MissingKeyword "Scratch" "title").
Proof. split; [done | vm_compute; reflexivity]. Qed.

(** Two rasters with different rows and columns over the same area have
    different pixel sizes: the geotransform check of the first loop fails
    before the dimensions are compared. *)
Lemma dimension_mismatch_masked :
  rasters_misaligned [flood; coarse_population]
  /\ example_validate [flood; coarse_population]
     = Raise (GeotransformMismatch unit_grid coarse_grid)
  /\ ~ fails_with (example_validate [flood; coarse_population])
                  KDimensionMismatch.
Proof.
  split; [|split].
  - exists flood, coarse_population, (2, 3), (1, 2).
    split; [apply list_elem_of_here|].
    split; [apply list_elem_of_further, list_elem_of_here|].
    split; [done|]. split; [done|]. left. done.
  - vm_compute. reflexivity.
  - intros (e & He & Hk). vm_compute in He. injection He as <-. done.
Qed.

(** Two aligned rasters pass, and the theorem on raster alignment applies. *)
Lemma raster_alignment_witness :
  is_raster flood = true
  /\ for_fold (check_layer example_keywords allclose_points)
              (initial_locals WGS84) [flood; population]
     = Return {| reference_projection := Some WGS84;
                 geotransform := Some unit_grid;
                 coordinates := None |}
  /\ (check_data_integrity WGS84 example_keywords allclose_points
                           [flood; population] = Return tt
      <-> rasters_aligned [flood; population])
  /\ (fails_with (check_data_integrity WGS84 example_keywords allclose_points
                                       [flood; population])
                 KDimensionMismatch
      <-> rasters_misaligned [flood; population]).
Proof.
  assert (Hfold : for_fold (check_layer example_keywords allclose_points)
                           (initial_locals WGS84) [flood; population]
                  = Return {| reference_projection := Some WGS84;
                              geotransform := Some unit_grid;
                              coordinates := None |})
    by (vm_compute; reflexivity).
  split; [reflexivity|]. split; [exact Hfold|].
  exact (raster_alignment WGS84 example_keywords allclose_points
                          flood [population] _ eq_refl Hfold).
Defined.

(** A list that starts with a vector layer: every per-layer check passes and
    the only raster is aligned with itself, and the second pass stops at
    [layer_files[0].rows].  The other way round the list is valid. *)
Lemma vector_first_never_validated_witness :
  is_vector buildings = true
  /\ for_fold (check_layer example_keywords allclose_points)
              (initial_locals WGS84) [buildings; flood]
     = Return {| reference_projection := Some WGS84;
                 geotransform := Some unit_grid;
                 coordinates := Some [(4.5, 4.5); (5.5, 5.5)]%float |}
  /\ check_data_integrity WGS84 example_keywords allclose_points
                          [buildings; flood]
     = Raise (AttributeError "rows")
  /\ check_data_integrity WGS84 example_keywords allclose_points
                          [flood; buildings]
     = Return tt.
Proof.
  assert (Hfold : for_fold (check_layer example_keywords allclose_points)
                           (initial_locals WGS84) [buildings; flood]
                  = Return {| reference_projection := Some WGS84;
                              geotransform := Some unit_grid;
                              coordinates := Some [(4.5, 4.5); (5.5, 5.5)]%float |})
    by (vm_compute; reflexivity).
  split; [reflexivity|]. split; [exact Hfold|].
  split; [|vm_compute; reflexivity].
  exact (proj2 (vector_first_never_validated WGS84 example_keywords
                  allclose_points buildings [flood] eq_refl) _ Hfold).
Defined.

(** ** Geotransforms *)

(** The shifted grid is a billion times further from the reference than the
    relative tolerance allows, and it is accepted: the distance is below the
    default absolute tolerance. *)
Lemma absolute_tolerance_accepts :
  exceeds_rtol 1.0e-12%float unit_grid shifted_grid = true
  /\ allclose 1.0e-12%float 1.0e-8%float unit_grid shifted_grid = true
  /\ example_validate [flood; shifted_flood] = Return tt.
Proof. repeat split; vm_compute; reflexivity. Qed.

Lemma geotransform_tolerance_witness :
  for_fold (check_layer example_keywords allclose_points)
           (initial_locals WGS84) [flood]
  = Return {| reference_projection := Some WGS84;
              geotransform := Some unit_grid;
              coordinates := None |}
  /\ first_raster_geotransform [flood] = Some unit_grid
  /\ data shifted_flood = RasterData 2 3 shifted_grid
  /\ for_each (check_keyword shifted_flood) example_keywords = Return tt
  /\ projection shifted_flood = WGS84
  /\ (allclose 1.0e-12%float 1.0e-8%float unit_grid shifted_grid = true ->
      for_fold (check_layer example_keywords allclose_points)
               (initial_locals WGS84) ([flood] ++ [shifted_flood])
      = Return {| reference_projection := Some WGS84;
                  geotransform := Some unit_grid;
                  coordinates := None |})
  /\ (allclose 1.0e-12%float 1.0e-8%float unit_grid shifted_grid = false ->
      check_data_integrity WGS84 example_keywords allclose_points
                           ([flood] ++ shifted_flood :: [])
      = Raise (GeotransformMismatch unit_grid shifted_grid)).
Proof.
  assert (Hfold : for_fold (check_layer example_keywords allclose_points)
                           (initial_locals WGS84) [flood]
                  = Return {| reference_projection := Some WGS84;
                              geotransform := Some unit_grid;
                              coordinates := None |})
    by (vm_compute; reflexivity).
  assert (Hkw : for_each (check_keyword shifted_flood) example_keywords
                = Return tt)
    by (vm_compute; reflexivity).
  split; [exact Hfold|]. split; [reflexivity|]. split; [reflexivity|].
  split; [exact Hkw|]. split; [reflexivity|].
  exact (geotransform_tolerance WGS84 example_keywords allclose_points
           [flood] shifted_flood [] _ unit_grid 2 3 shifted_grid
           Hfold eq_refl eq_refl Hkw eq_refl).
Defined.

(** ** [calculate_impact] *)

Lemma calculate_impact_propagates_validation_witness :
  check_data_integrity WGS84 example_keywords allclose_points [unlabelled_utm]
  = Raise (MissingKeyword "Scratch" "title")
  /\ calculate_impact WGS84 example_keywords allclose_points
                      example_unique_filename always_writes
                      [unlabelled_utm] unnamed_function "" empty_world
     = (Raise (MissingKeyword "Scratch" "title"), empty_world).
Proof.
  assert (Hv : check_data_integrity WGS84 example_keywords allclose_points
                                    [unlabelled_utm]
               = Raise (MissingKeyword "Scratch" "title"))
    by (vm_compute; reflexivity).
  split; [exact Hv|].
  exact (calculate_impact_propagates_validation
           WGS84 example_keywords allclose_points
           example_unique_filename always_writes
           [unlabelled_utm] unnamed_function "" empty_world _ Hv).
Defined.

Lemma calculate_impact_null_result_witness :
  check_data_integrity WGS84 example_keywords allclose_points
                       [flood; population] = Return tt
  /\ run null_function [flood; population] = None
  /\ exists w',
      calculate_impact WGS84 example_keywords allclose_points
                       example_unique_filename always_writes
                       [flood; population] null_function "" empty_world
      = (Raise (NullResult (repr null_function)), w')
      /\ class_of (@NullResult string points (repr null_function))
         = ComputationError
      /\ files w' = files empty_world
      /\ issued w' = issued empty_world
      /\ log w' = log empty_world ++ [Instantiated; Ran].
Proof.
  assert (Hv : check_data_integrity WGS84 example_keywords allclose_points
                                    [flood; population] = Return tt)
    by (vm_compute; reflexivity).
  split; [exact Hv|]. split; [reflexivity|].
  exact (calculate_impact_null_result
           WGS84 example_keywords allclose_points
           example_unique_filename always_writes
           [flood; population] null_function "" empty_world Hv eq_refl).
Defined.

(** C2: for the layers named Flood and Population, an impact function without
    [plugin_name] and a result without a name, the call succeeds and the
    result is named by the two layer names joined with the separator, cut by
    two characters: the blank before the last X stays. *)
Theorem default_name_flood_population :
  default_name [flood; population] unnamed_function = "Flood X Population "
  /\ fst (example_impact [flood; population] unnamed_function "" empty_world)
     = Return returned_result
  /\ res_name returned_result <> Some "Flood X Population".
Proof.
  split; [|split].
  - vm_compute. reflexivity.
  - vm_compute. reflexivity.
  - discriminate.
Qed.

Lemma default_name_trailing_blank_witness :
  plugin_name unnamed_function = None
  /\ default_name ([flood] ++ [population]) unnamed_function
     = joined_names [flood] +:+ name population +:+ " ".
Proof.
  split; [reflexivity|].
  exact (default_name_trailing_blank [flood] population unnamed_function
                                     eq_refl).
Defined.

(** The successful run writes the result and names it afterwards. *)
Lemma persisted_before_named_run :
  fst (example_impact [flood; population] unnamed_function "" empty_world)
  = Return returned_result
  /\ log (snd (example_impact [flood; population] unnamed_function ""
                              empty_world))
     = [Instantiated; Ran; NameGenerated ".tif" "impact_0.tif";
        FilenameAssigned "impact_0.tif";
        Written "impact_0.tif" written_result;
        NameAssigned "Flood X Population "]
  /\ ~ named_before_persisted
         (log (snd (example_impact [flood; population] unnamed_function ""
                                   empty_world))).
Proof.
  assert (Hlog : log (snd (example_impact [flood; population] unnamed_function
                                          "" empty_world))
                 = [Instantiated; Ran; NameGenerated ".tif" "impact_0.tif";
                    FilenameAssigned "impact_0.tif";
                    Written "impact_0.tif" written_result;
                    NameAssigned "Flood X Population "])
    by (vm_compute; reflexivity).
  split; [vm_compute; reflexivity|]. split; [exact Hlog|].
  rewrite Hlog. intros Horder.
  specialize (Horder 5%nat 4%nat _ _ eq_refl eq_refl eq_refl eq_refl). lia.
Qed.

Lemma calculate_impact_stages_witness :
  calculate_impact WGS84 example_keywords allclose_points
                   example_unique_filename always_writes
                   [flood; population] unnamed_function "" empty_world
  = (Return returned_result,
     {| files := <["impact_0.tif" := written_result]> ∅;
        issued := 1;
        log := [Instantiated; Ran; NameGenerated ".tif" "impact_0.tif";
                FilenameAssigned "impact_0.tif";
                Written "impact_0.tif" written_result;
                NameAssigned "Flood X Population "] |})
  /\ check_data_integrity WGS84 example_keywords allclose_points
                          [flood; population] = Return tt.
Proof.
  assert (Hrun : calculate_impact WGS84 example_keywords allclose_points
                   example_unique_filename always_writes
                   [flood; population] unnamed_function "" empty_world
                 = (Return returned_result,
                    {| files := <["impact_0.tif" := written_result]> ∅;
                       issued := 1;
                       log := [Instantiated; Ran;
                               NameGenerated ".tif" "impact_0.tif";
                               FilenameAssigned "impact_0.tif";
                               Written "impact_0.tif" written_result;
                               NameAssigned "Flood X Population "] |}))
    by (vm_compute; reflexivity).
  split; [exact Hrun|].
  exact (proj1 (calculate_impact_stages
                  WGS84 example_keywords allclose_points
                  example_unique_filename always_writes
                  [flood; population] unnamed_function "" empty_world
                  _ _ Hrun)).
Defined.

Lemma calculate_impact_extension_witness :
  calculate_impact WGS84 example_keywords allclose_points
                   example_unique_filename always_writes
                   [flood; buildings] unnamed_function "" empty_world
  = (Return returned_result_buildings,
     {| files := <["impact_0.tif" := written_result]> ∅;
        issued := 1;
        log := [Instantiated; Ran; NameGenerated ".tif" "impact_0.tif";
                FilenameAssigned "impact_0.tif";
                Written "impact_0.tif" written_result;
                NameAssigned "Flood X Buildings "] |})
  /\ exists F0,
      run unnamed_function [flood; buildings] = Some F0
      /\ res_is_raster returned_result_buildings = res_is_raster F0
      /\ res_filename returned_result_buildings
         = Some (example_unique_filename (issued empty_world)
                   (if res_is_raster F0 then ".tif" else ".shp")).
Proof.
  assert (Hrun : calculate_impact WGS84 example_keywords allclose_points
                   example_unique_filename always_writes
                   [flood; buildings] unnamed_function "" empty_world
                 = (Return returned_result_buildings,
                    {| files := <["impact_0.tif" := written_result]> ∅;
                       issued := 1;
                       log := [Instantiated; Ran;
                               NameGenerated ".tif" "impact_0.tif";
                               FilenameAssigned "impact_0.tif";
                               Written "impact_0.tif" written_result;
                               NameAssigned "Flood X Buildings "] |}))
    by (vm_compute; reflexivity).
  split; [exact Hrun|].
  exact (calculate_impact_extension
           WGS84 example_keywords allclose_points
           example_unique_filename always_writes
           [flood; buildings] unnamed_function "" empty_world _ _ Hrun).
Defined.

(** ** [get_bounding_boxes] *)

(** A request of three coordinates is not rejected by the function: it
    reaches the intersection primitive, and the exception is the
    primitive's. *)
Lemma three_coordinates_reach_intersection :
  coercible_to_bbox three_coordinates = false
  /\ example_bounding_boxes (SpatialObject flood) (SpatialObject population)
                            three_coordinates empty_world
     = (Raise (ExternalError "bbox_intersection"),
        with_events empty_world
          [Intersected [PyFloat 0; PyFloat 0; PyFloat 1]
                       [5; 5; 6; 6]%float [4; 4; 12; 12]%float])
  /\ class_of (@ExternalError string points "bbox_intersection") <> InputError.
Proof.
  split; [vm_compute; reflexivity|].
  split; [vm_compute; reflexivity | discriminate].
Qed.

Lemma get_bounding_boxes_coercion_witness :
  resolve_layer nothing_on_disk (SpatialObject flood) empty_world
  = (Return flood, empty_world)
  /\ resolve_layer nothing_on_disk (SpatialObject population) empty_world
     = (Return population, empty_world)
  /\ (py_list PyNone = None ->
      get_bounding_boxes nothing_on_disk bbox_intersection_model
                         example_bboxlist2string
                         (SpatialObject flood) (SpatialObject population)
                         PyNone empty_world
      = (Raise (InvalidBoundingBox PyNone), empty_world)).
Proof.
  split; [reflexivity|]. split; [reflexivity|].
  exact (proj1 (get_bounding_boxes_coercion
                  nothing_on_disk bbox_intersection_model
                  example_bboxlist2string
                  (SpatialObject flood) (SpatialObject population) PyNone
                  empty_world flood population empty_world empty_world
                  eq_refl eq_refl)).
Defined.

(** A request that is no sequence at all is rejected at once. *)
Example not_iterable_rejected :
  example_bounding_boxes (SpatialObject flood) (SpatialObject population)
                         PyNone empty_world
  = (Raise (InvalidBoundingBox PyNone), empty_world).
Proof. vm_compute. reflexivity. Qed.

(** The no-overlap scenario with its message. *)
Example no_overlap_message :
  fst (example_bounding_boxes (SpatialObject flood) (SpatialObject population)
                              unit_viewport empty_world)
  = Raise (NoOverlap "Bounding boxes of hazard data [5.000,5.000,6.000,6.000], exposure data [4.000,4.000,12.000,12.000] and viewport [0.000,0.000,1.000,1.000] did not overlap, so no computation was done. Please make sure you pan to where the data is and that hazard and exposure data overlaps.").
Proof. vm_compute. reflexivity. Qed.

Lemma get_bounding_boxes_no_overlap_witness :
  bounding_box flood = [5; 5; 6; 6]%float
  /\ bounding_box population = [4; 4; 12; 12]%float
  /\ exists msg w3,
      get_bounding_boxes nothing_on_disk bbox_intersection_model
                         example_bboxlist2string
                         (SpatialObject flood) (SpatialObject population)
                         (PyList [PyFloat 0; PyFloat 0; PyFloat 1; PyFloat 1])
                         empty_world
      = (Raise (NoOverlap msg), w3)
      /\ class_of (@NoOverlap string points msg) = OverlapError.
Proof.
  split; [reflexivity|]. split; [reflexivity|].
  exact (proj2 (get_bounding_boxes_no_overlap
                  nothing_on_disk (@bbox_intersection_model string points)
                  example_bboxlist2string)
               flood population empty_world _ _ _ _ eq_refl eq_refl).
Defined.

(** ** More definite inputs *)

Lemma keyword_errors_are_truthful_witness :
  check_data_integrity WGS84 example_keywords allclose_points [unlabelled_utm]
  = Raise (MissingKeyword "Scratch" "title")
  /\ exists l, l ∈ [unlabelled_utm] /\ name l = "Scratch"
               /\ "title" ∈ example_keywords /\ keywords l !! "title" = None.
Proof.
  assert (Hv : check_data_integrity WGS84 example_keywords allclose_points
                                    [unlabelled_utm]
               = Raise (MissingKeyword "Scratch" "title"))
    by (vm_compute; reflexivity).
  split; [exact Hv|].
  exact (keyword_errors_are_truthful WGS84 example_keywords allclose_points
                                     [unlabelled_utm] _ Hv).
Defined.


Lemma calculate_impact_touches_one_file_witness :
  "elsewhere.tif" <> example_unique_filename (issued empty_world) ".tif"
  /\ "elsewhere.tif" <> example_unique_filename (issued empty_world) ".shp"
  /\ files (snd (example_impact [flood; population] unnamed_function ""
                                empty_world)) !! "elsewhere.tif"
     = files empty_world !! "elsewhere.tif"
  /\ (issued empty_world
      <= issued (snd (example_impact [flood; population] unnamed_function ""
                                     empty_world))
      <= S (issued empty_world))%nat.
Proof.
  assert (Htif : "elsewhere.tif"
                 <> example_unique_filename (issued empty_world) ".tif")
    by (vm_compute; discriminate).
  assert (Hshp : "elsewhere.tif"
                 <> example_unique_filename (issued empty_world) ".shp")
    by (vm_compute; discriminate).
  split; [exact Htif|]. split; [exact Hshp|].
  exact (calculate_impact_touches_one_file
           WGS84 example_keywords allclose_points
           example_unique_filename always_writes
           [flood; population] unnamed_function "" empty_world
           _ _ "elsewhere.tif" (surjective_pairing _) Htif Hshp).
Defined.

Lemma successive_results_are_kept_witness :
  exists fn1 fn2 G1 G2,
    res_filename returned_result = Some fn1
    /\ res_filename (set_filename named_result "impact_1.shp") = Some fn2
    /\ files (snd (example_impact [flood; population] unnamed_function ""
                                  empty_world)) !! fn1 = Some G1
    /\ files (snd (example_impact [flood; buildings] named_function ""
                     (snd (example_impact [flood; population] unnamed_function
                                          "" empty_world)))) !! fn1 = Some G1
    /\ files (snd (example_impact [flood; buildings] named_function ""
                     (snd (example_impact [flood; population] unnamed_function
                                          "" empty_world)))) !! fn2 = Some G2
    /\ res_filename G1 = Some fn1 /\ res_filename G2 = Some fn2
    /\ issued (snd (example_impact [flood; buildings] named_function ""
                      (snd (example_impact [flood; population] unnamed_function
                                           "" empty_world))))
       = S (S (issued empty_world)).
Proof.
  assert (Hfirst : calculate_impact WGS84 example_keywords allclose_points
                     example_unique_filename always_writes
                     [flood; population] unnamed_function "" empty_world
                   = (Return returned_result,
                      snd (example_impact [flood; population] unnamed_function
                                          "" empty_world)))
    by (vm_compute; reflexivity).
  assert (Hsecond : calculate_impact WGS84 example_keywords allclose_points
                      example_unique_filename always_writes
                      [flood; buildings] named_function ""
                      (snd (example_impact [flood; population] unnamed_function
                                           "" empty_world))
                    = (Return (set_filename named_result "impact_1.shp"),
                       snd (example_impact [flood; buildings] named_function ""
                              (snd (example_impact [flood; population]
                                      unnamed_function "" empty_world)))))
    by (vm_compute; reflexivity).
  assert (Hne : res_filename returned_result
                <> res_filename (set_filename named_result "impact_1.shp"))
    by discriminate.
  exact (successive_results_are_kept
           WGS84 example_keywords allclose_points
           example_unique_filename always_writes
           [flood; population] [flood; buildings]
           unnamed_function named_function "" "" empty_world
           _ _ _ _ Hfirst Hsecond Hne).
Defined.

Lemma named_result_keeps_name_witness :
  run named_function [flood; buildings] = Some named_result
  /\ name_unset named_result = false
  /\ set_filename named_result "impact_0.shp"
     = set_filename named_result
         (example_unique_filename (issued empty_world) ".shp")
  /\ res_name (set_filename named_result "impact_0.shp")
     = res_name named_result.
Proof.
  assert (Hrun : calculate_impact WGS84 example_keywords allclose_points
                   example_unique_filename always_writes
                   [flood; buildings] named_function "" empty_world
                 = (Return (set_filename named_result "impact_0.shp"),
                    snd (example_impact [flood; buildings] named_function ""
                                        empty_world)))
    by (vm_compute; reflexivity).
  split; [reflexivity|]. split; [reflexivity|].
  pose proof (named_result_keeps_name
                WGS84 example_keywords allclose_points
                example_unique_filename always_writes
                [flood; buildings] named_function "" empty_world
                _ _ named_result Hrun eq_refl eq_refl) as H.
  exact (conj (proj1 H) (proj1 (proj2 H))).
Defined.


(** With a plugin name the default name has no trailing separator. *)
Example default_name_with_plugin_example :
  default_name [flood; population] plugin_function
  = "Flood X Population X Flood impact".
Proof. vm_compute. reflexivity. Qed.

Lemma get_bounding_boxes_returns_intersection_witness :
  get_bounding_boxes nothing_on_disk bbox_intersection_model
                     example_bboxlist2string
                     (SpatialObject flood) (SpatialObject population)
                     (PyList [PyFloat 0; PyFloat 0; PyFloat 10; PyFloat 10])
                     empty_world
  = (Return ([5; 5; 6; 6]%float, None),
     with_events empty_world
       [Intersected [PyFloat 0; PyFloat 0; PyFloat 10; PyFloat 10]
                    [5; 5; 6; 6]%float [4; 4; 12; 12]%float])
  /\ (None : option (list float)) = None.
Proof.
  assert (Hrun : get_bounding_boxes nothing_on_disk bbox_intersection_model
                   example_bboxlist2string
                   (SpatialObject flood) (SpatialObject population)
                   (PyList [PyFloat 0; PyFloat 0; PyFloat 10; PyFloat 10])
                   empty_world
                 = (Return ([5; 5; 6; 6]%float, None),
                    with_events empty_world
                      [Intersected
                         [PyFloat 0; PyFloat 0; PyFloat 10; PyFloat 10]
                         [5; 5; 6; 6]%float [4; 4; 12; 12]%float]))
    by (vm_compute; reflexivity).
  split; [exact Hrun|].
  exact (proj1 (get_bounding_boxes_returns_intersection
                  nothing_on_disk bbox_intersection_model
                  example_bboxlist2string
                  (SpatialObject flood) (SpatialObject population) _
                  empty_world _ _ _ Hrun)).
Defined.

Lemma get_bounding_boxes_splits_text_witness :
  exists o w3 items later,
    get_bounding_boxes nothing_on_disk bbox_intersection_model
                       example_bboxlist2string
                       (SpatialObject flood) (SpatialObject population)
                       (PyStr "0,0,1,1") empty_world = (o, w3)
    /\ log w3 = log empty_world
                ++ Intersected items (bounding_box flood)
                               (bounding_box population) :: later
    /\ length items = String.length "0,0,1,1"
    /\ Forall (fun item => exists ch, item = PyStr (String ch "")) items.
Proof.
  exact (get_bounding_boxes_splits_text
           nothing_on_disk bbox_intersection_model example_bboxlist2string
           (SpatialObject flood) (SpatialObject population) "0,0,1,1"
           empty_world flood population empty_world empty_world
           eq_refl eq_refl).
Defined.

(** The textual request of the docstring ends in the primitive's exception. *)
Example text_request_is_not_parsed :
  fst (example_bounding_boxes (SpatialObject flood) (SpatialObject population)
                              (PyStr "0,0,1,1") empty_world)
  = Raise (ExternalError "bbox_intersection").
Proof. vm_compute. reflexivity. Qed.

(** Two rasters on the same geotransform with different rows: the second
    pass reports the second against the first. *)
Lemma mismatch_errors_are_truthful_witness :
  check_data_integrity WGS84 example_keywords allclose_points
                       [flood; tall_population]
  = Raise (RowsMismatch "Tall population" 4 "Flood" 2)
  /\ exists first rest l columns N,
      [flood; tall_population] = first :: rest /\ name first = "Flood"
      /\ raster_dims first = Some (2, N)
      /\ l ∈ [flood; tall_population] /\ name l = "Tall population"
      /\ raster_dims l = Some (4, columns) /\ 4 <> 2.
Proof.
  assert (Hv : check_data_integrity WGS84 example_keywords allclose_points
                                    [flood; tall_population]
               = Raise (RowsMismatch "Tall population" 4 "Flood" 2))
    by (vm_compute; reflexivity).
  split; [exact Hv|].
  exact (mismatch_errors_are_truthful WGS84 example_keywords allclose_points
                                      [flood; tall_population] _ Hv).
Defined.

Lemma calculate_impact_keeps_files_consistent_witness :
  files_consistent empty_world
  /\ files_consistent
       (snd (example_impact [flood; population] unnamed_function ""
                            empty_world)).
Proof.
  assert (Hempty : files_consistent empty_world).
  { intros path F Hlook. simpl in Hlook. by rewrite lookup_empty in Hlook. }
  split; [exact Hempty|].
  exact (calculate_impact_keeps_files_consistent
           WGS84 example_keywords allclose_points
           example_unique_filename always_writes
           [flood; population] unnamed_function "" empty_world _ _
           Hempty (surjective_pairing _)).
Defined.
